(** * Meta Pixel Calculator: the text analyzer and the batch endpoint

    A shallow embedding of [src/index.js] (check-serp-pixels): the helper
    [analyzeText], which measures a meta title or description with the
    canvas text metrics and derives the truncation diagnostics, and the
    handler of [POST /api/analyze/batch].

    Modelling conventions.
    - A JavaScript string is the list of its UTF-16 code units, so that
      [text.length] is [length] and [text.slice(0, n)] is a prefix.
    - A JavaScript number is an extended rational: the finite values are
      exact rationals (every double is one), with [Infinity], [-Infinity]
      and [NaN].  A division rounds its exact quotient to the nearest
      double, ties to even, as IEEE 754 asks; the comparisons, the
      subtraction of the integer 5 from an integer budget, [Math.floor]
      and [Math.round] are exact on doubles.  The sign of zero is not
      modelled.
    - The canvas library is the only stateful collaborator: every call of
      [createContext] allocates a fresh 2d context.  The contexts are kept
      in a store that [analyzeText] threads through, in the state monad.
    - The glyph metrics of the rendering environment are a parameter
      [glyphWidth]: the width in pixels of a string set in a font. *)

From Stdlib Require Import String Ascii QArith Qround Qpower Qreduction ZArith Bool Lia Lqa
  Arith List.
From ExtLib Require Import Structures.Monad Structures.MonadState Data.Monads.StateMonad.
Import ListNotations.
Import MonadNotation.
Local Open Scope monad_scope.
Local Open Scope Q_scope.

(** ** JavaScript strings *)

Definition CodeUnit := N.
Definition JsString := list CodeUnit.

(** The JavaScript string of an ASCII literal of the source. *)
Definition js (s : string) : JsString := map N_of_ascii (list_ascii_of_string s).

(** [text.slice(start, stop)] for indices that are not negative. *)
Definition slice (text : JsString) (start stop : nat) : JsString :=
  firstn (stop - start) (skipn start text).

(** [s.endsWith(suffix)] *)
Definition endsWith (s suffix : JsString) : Prop := exists p, s = p ++ suffix.

(** ** JavaScript numbers *)

Inductive JsNumber : Type :=
| Finite (q : Q)
| PosInfinity
| NegInfinity
| NaN.

(** [a > b] and [a < b] on finite numbers. *)
Definition Qgtb (a b : Q) : bool := negb (Qle_bool a b).
Definition Qltb (a b : Q) : bool := negb (Qle_bool b a).

Definition Qis_zero (a : Q) : bool := Qeq_bool a 0.

(** The nearest integer, ties going to the even one. *)
Definition half_even (q : Q) : Z :=
  let f := Qfloor q in
  match Qcompare (q - inject_Z f) (1 # 2) with
  | Lt => f
  | Gt => (f + 1)%Z
  | Eq => if Z.even f then f else (f + 1)%Z
  end.

(** The exponent [e] of a positive rational: [2 ^ e <= q < 2 ^ (e + 1)]. *)
Definition Qlog2 (q : Q) : Z :=
  let e := (Z.log2 (Qnum q) - Z.log2 (Zpos (Qden q)))%Z in
  if Qle_bool (2 ^ e) q then e else (e - 1)%Z.

(** The double nearest to a positive rational, ties to even: a multiple
    of the unit in the last place of its binade (53 bits of precision,
    subnormals below [2 ^ -1022]), and [Infinity] from [2 ^ 1024] on. *)
Definition round_positive (q : Q) : JsNumber :=
  let ulp := 2 ^ (Z.max (Qlog2 q - 52) (-1074)) in
  let r := inject_Z (half_even (q / ulp)) * ulp in
  if Qle_bool (2 ^ 1024) r then PosInfinity else Finite (Qred r).

(** The double nearest to a rational. *)
Definition round_to_double (q : Q) : JsNumber :=
  match Qcompare q 0 with
  | Eq => Finite 0
  | Gt => round_positive q
  | Lt => match round_positive (- q) with
          | Finite r => Finite (- r)
          | _ => NegInfinity
          end
  end.

(** [a / b] on doubles: the exact quotient rounded to the nearest double.
    Division never throws; a zero divisor gives an infinity of the sign of
    the dividend, and [0 / 0] is [NaN]. *)
Definition js_div (a b : JsNumber) : JsNumber :=
  match a, b with
  | NaN, _ | _, NaN => NaN
  | Finite x, Finite y =>
      if Qis_zero y then
        if Qgtb x 0 then PosInfinity
        else if Qltb x 0 then NegInfinity
        else NaN
      else round_to_double (x / y)
  | Finite _, (PosInfinity | NegInfinity) => Finite 0
  | PosInfinity, Finite y => if Qltb y 0 then NegInfinity else PosInfinity
  | NegInfinity, Finite y => if Qltb y 0 then PosInfinity else NegInfinity
  | (PosInfinity | NegInfinity), (PosInfinity | NegInfinity) => NaN
  end.

(** [Math.floor] *)
Definition Math_floor (x : JsNumber) : JsNumber :=
  match x with
  | Finite q => Finite (inject_Z (Qfloor q))
  | other => other
  end.

(** [Math.round] of a finite number: the nearest integer, halves going up. *)
Definition Math_round (q : Q) : Z := Qfloor (q + (1 # 2)).

(** [text.length] as a number. *)
Definition length_number (text : JsString) : JsNumber :=
  Finite (inject_Z (Z.of_nat (length text))).

(** ** The canvas library *)

(** The value of [ctx.font], which the source builds as
    [`${fontSize}px ${fontFamily}`]. *)
Record Font : Type := mkFont { font_size : Q; font_family : string }.

(** A new 2d context has the font of the canvas specification. *)
Definition defaultFont : Font := mkFont 10 "sans-serif".

(** The store holds the font of every context allocated so far; a context
    is known by its position in the store. *)
Definition Context2d := nat.
Definition Store := list Font.

Fixpoint store_update (st : Store) (ctx : Context2d) (f : Font) : Store :=
  match st, ctx with
  | [], _ => []
  | _ :: rest, O => f :: rest
  | g :: rest, S k => g :: store_update rest k f
  end.

Definition store_font (st : Store) (ctx : Context2d) : Font := nth ctx st defaultFont.

(** [createCanvas(1, 1).getContext('2d')] *)
Definition createCanvas_getContext : state Store Context2d :=
  st <- get ;;
  put (st ++ [defaultFont]) ;;
  ret (length st).

(** [ctx.font = f] *)
Definition set_font (ctx : Context2d) (f : Font) : state Store unit :=
  st <- get ;;
  put (store_update st ctx f).

(** ** Meta measurement constants *)

Inductive MetaType : Type := title | description.

Definition is_description (type : MetaType) : bool :=
  match type with description => true | title => false end.

Record Settings : Type := mkSettings {
  fontFamily : string;
  fontSize : Q;
  maxPixels : Q;
  minPixels : option Q;       (* absent in the title settings *)
  visualFontSize : option Q   (* absent in the description settings *)
}.

Definition META_SETTINGS (type : MetaType) : Settings :=
  match type with
  | title => mkSettings "Arial" 20 600 None (Some 20)
  | description => mkSettings "Arial" 14 920 (Some 430) None
  end.

(** ** The analysis result *)

Module Result.
Record t : Type := mk {
  pixelWidth : Z;
  characterCount : nat;
  isTruncated : bool;
  truncatedText : JsString;
  isOptimal : bool;
  recommendedMaxChars : JsNumber;
  maxPixels : Q;
  minPixels : option Q;     (* [None]: the field is not in the object *)
  isTooShort : option bool  (* [None]: the field is not in the object *)
}.
End Result.

Section Analyzer.

(** The glyph metrics of the deployment: the advance width of a string in
    a font.  [ctx.measureText(text).width] reads it at the font of [ctx]. *)
Variable glyphWidth : Font -> JsString -> Q.

Definition measureText (ctx : Context2d) (text : JsString) : state Store Q :=
  st <- get ;;
  ret (glyphWidth (store_font st ctx) text).

(** [createContext(fontSize, fontFamily)] *)
Definition createContext (fontSize : Q) (fontFamily : string) : state Store Context2d :=
  ctx <- createCanvas_getContext ;;
  set_font ctx (mkFont fontSize fontFamily) ;;
  ret ctx.

(** [measureTextWidth(text, fontSize, fontFamily)] *)
Definition measureTextWidth (text : JsString) (fontSize : Q) (fontFamily : string)
  : state Store Q :=
  ctx <- createContext fontSize fontFamily ;;
  measureText ctx text.

(** ** The analyzer *)

(** The budget of the truncation scan: [settings.maxPixels - 5]. *)
Definition scan_budget (settings : Settings) : Q := maxPixels settings - 5.

(** The loop
    [while (i < text.length) { if (width(text.slice(0, i + 1)) > budget) break; i++; }]
    started at [i]; the result is the value of [i] when the loop is left.
    Each turn increases [i], so [text.length - i] turns are enough. *)
Fixpoint truncation_loop (ctx : Context2d) (text : JsString) (budget : Q)
    (fuel : nat) (i : nat) : state Store nat :=
  match fuel with
  | O => ret i
  | S fuel' =>
      if (i <? length text)%nat then
        sliceWidth <- measureText ctx (slice text 0 (i + 1)) ;;
        if Qgtb sliceWidth budget then ret i
        else truncation_loop ctx text budget fuel' (i + 1)%nat
      else ret i
  end.

(** [pixelWidth < settings.minPixels]; a comparison with [undefined] is false. *)
Definition lt_minPixels (pixelWidth : Q) (settings : Settings) : bool :=
  match minPixels settings with
  | Some m => Qltb pixelWidth m
  | None => false
  end.

Definition analyzeText (text : JsString) (type : MetaType) : state Store Result.t :=
  let settings := META_SETTINGS type in
  pixelWidth <- measureTextWidth text (fontSize settings) (fontFamily settings) ;;
  let isTruncated := Qgtb pixelWidth (maxPixels settings) in
  truncatedText <-
    (if isTruncated then
       ctx <- createContext (fontSize settings) (fontFamily settings) ;;
       i <- truncation_loop ctx text (scan_budget settings) (length text) 0%nat ;;
       ret (slice text 0 i ++ js "...")
     else ret text) ;;
  let avgCharWidth := js_div (Finite pixelWidth) (length_number text) in
  let recommendedChars := Math_floor (js_div (Finite (maxPixels settings)) avgCharWidth) in
  let isTooShort := is_description type && lt_minPixels pixelWidth settings in
  ret {| Result.pixelWidth := Math_round pixelWidth;
         Result.characterCount := length text;
         Result.isTruncated := isTruncated;
         Result.truncatedText := if isTruncated then truncatedText else text;
         Result.isOptimal := negb isTruncated && (negb (is_description type) || negb isTooShort);
         Result.recommendedMaxChars := recommendedChars;
         Result.maxPixels := maxPixels settings;
         Result.minPixels := if is_description type then minPixels settings else None;
         Result.isTooShort := if is_description type then Some isTooShort else None |}.

End Analyzer.

(** ** JSON values of a request *)

Local Set Warnings "-register-all".

(** The values that [express.json()] puts in [req.body], and [undefined]
    for the properties that are not there.  The properties of an object
    are listed in the order of [Object.keys], each key once. *)
Inductive JsValue : Type :=
| JUndefined
| JNull
| JBool (b : bool)
| JNumber (q : Q)
| JString (s : JsString)
| JArray (elements : list JsValue)
| JObject (props : list (string * JsValue)).

(** The conversion to boolean of [if (v)], [!v], [a && b] and [a || b]. *)
Definition truthy (v : JsValue) : bool :=
  match v with
  | JUndefined | JNull => false
  | JBool b => b
  | JNumber q => negb (Qis_zero q)
  | JString s => match s with [] => false | _ :: _ => true end
  | JArray _ | JObject _ => true
  end.

(** [typeof v === 'object'] *)
Definition typeof_object (v : JsValue) : bool :=
  match v with
  | JNull | JArray _ | JObject _ => true
  | JUndefined | JBool _ | JNumber _ | JString _ => false
  end.

(** [Array.isArray(v)] *)
Definition isArray (v : JsValue) : bool :=
  match v with JArray _ => true | _ => false end.

Fixpoint lookup (key : string) (props : list (string * JsValue)) : JsValue :=
  match props with
  | [] => JUndefined
  | (k, v) :: rest => if String.eqb k key then v else lookup key rest
  end.

(** [v.key] for the keys that the handler reads ([items], [id], [title],
    [description]): an object gives the property, and an array, a string,
    a number or a boolean has none of them.  The handler reads no property
    of [null] or [undefined]. *)
Definition prop (v : JsValue) (key : string) : JsValue :=
  match v with
  | JObject props => lookup key props
  | _ => JUndefined
  end.

(** [a || b] *)
Definition js_or (a b : JsValue) : JsValue := if truthy a then a else b.

(** The elements of an array. *)
Definition elements_of (v : JsValue) : list JsValue :=
  match v with JArray elements => elements | _ => [] end.

(** ** The batch endpoint *)

(** One entry of the [items] of the response; [None] is a field that the
    object does not have. *)
Module Item.
Record t : Type := mk {
  id : option JsValue;
  title : option Result.t;
  description : option Result.t;
  error : option string
}.
End Item.

(** The JSON documents that the handler sends. *)
Inductive ResponseBody : Type :=
| BatchBody (items : list Item.t) (count : nat) (timestamp : string)
| ErrorBody (error : string) (receivedBody : JsValue).

Record Response : Type := mkResponse { status : nat; body : ResponseBody }.

(** [res.json(b)] and [res.status(n).json(b)] *)
Definition res_json (b : ResponseBody) : Response := mkResponse 200 b.
Definition res_status_json (n : nat) (b : ResponseBody) : Response := mkResponse n b.

(** The search of the handler for the array of items in the body: the
    array, or the response that rejects the request. *)
Fixpoint find_items_in (values : list JsValue) : option JsValue :=
  match values with
  | [] => None
  | value :: rest =>
      if truthy value && typeof_object value then
        if isArray value then Some value
        else if truthy (prop value "items") && isArray (prop value "items")
             then Some (prop value "items")
             else find_items_in rest
      else find_items_in rest
  end.

(** [Object.keys(v).map(key => v[key])] for an object. *)
Definition own_values (v : JsValue) : list JsValue :=
  match v with JObject props => map snd props | _ => [] end.

Definition extract_items (reqBody : JsValue) : Response + JsValue :=
  if truthy reqBody && truthy (prop reqBody "items") && isArray (prop reqBody "items") then
    inr (prop reqBody "items")
  else if isArray reqBody then
    inr reqBody
  else if truthy reqBody && typeof_object reqBody then
    match find_items_in (own_values reqBody) with
    | Some items => inr items
    | None =>
        if truthy (js_or (prop reqBody "title") (prop reqBody "description")) then
          inr (JArray [reqBody])
        else
          inl (res_status_json 400
                 (ErrorBody "Could not find a valid items array in the request" reqBody))
    end
  else
    inl (res_status_json 400 (ErrorBody "Invalid request format" reqBody)).

Section Batch.

Variable glyphWidth : Font -> JsString -> Q.

(** [if (item.key) { result.key = analyzeText(item.key, type); }]: the
    field of the result, [Some None] when the property is falsy and the
    field is not set.  The outer [None] stands for a call of [analyzeText]
    on a truthy value that is not a string, which this development does
    not model. *)
Definition analyze_field (item : JsValue) (key : string) (type : MetaType)
  : state Store (option (option Result.t)) :=
  if truthy (prop item key) then
    match prop item key with
    | JString text => r <- analyzeText glyphWidth text type ;; ret (Some (Some r))
    | _ => ret None
    end
  else ret (Some None).

(** The callback of [items.map]. *)
Definition process_item (item : JsValue) : state Store (option Item.t) :=
  if negb (truthy item) || negb (typeof_object item) then
    ret (Some (Item.mk None None None (Some "Invalid item format"%string)))
  else
    let id := js_or (prop item "id") JNull in
    t <- analyze_field item "title" title ;;
    d <- analyze_field item "description" description ;;
    match t, d with
    | Some result_title, Some result_description =>
        ret (Some (Item.mk (Some id) result_title result_description
                     (if negb (truthy (prop item "title"))
                         && negb (truthy (prop item "description"))
                      then Some "Item must contain either a title or description"%string
                      else None)))
    | _, _ => ret None
    end.

(** [items.map(callback)]: the callback runs on the items in order. *)
Fixpoint map_items (items : list JsValue) : state Store (option (list Item.t)) :=
  match items with
  | [] => ret (Some [])
  | item :: rest =>
      r <- process_item item ;;
      rs <- map_items rest ;;
      match r, rs with
      | Some r, Some rs => ret (Some (r :: rs))
      | _, _ => ret None
      end
  end.

(** The handler of [POST /api/analyze/batch].  [now] is the value of
    [new Date().toISOString()].  [Object.keys(req.body)] throws on [null]
    and [undefined], which the [catch] turns into the response 500; its
    [message] is left out of the model.  The result is [None] when an item
    is outside the model (see [analyze_field]). *)
Definition analyze_batch (now : string) (reqBody : JsValue) : state Store (option Response) :=
  match reqBody with
  | JNull | JUndefined =>
      ret (Some (res_status_json 500 (ErrorBody "Batch processing failed" reqBody)))
  | _ =>
      match extract_items reqBody with
      | inl rejected => ret (Some rejected)
      | inr items =>
          if negb (truthy items) || negb (isArray items)
             || (length (elements_of items) =? 0)%nat then
            ret (Some (res_status_json 400
                         (ErrorBody "No items to analyze found in request" reqBody)))
          else
            results <- map_items (elements_of items) ;;
            match results with
            | Some results =>
                ret (Some (res_json (BatchBody results (length results) now)))
            | None => ret None
            end
      end
  end.

End Batch.

(** ** The single endpoint *)

(** The JSON documents that the handler of [/api/analyze] sends.  [E] is
    the type of the errors that express-validator reports. *)
Inductive AnalyzeBody (E : Type) : Type :=
| AnalysisBody (title_analysis description_analysis : option Result.t)
| ValidationErrors (errors : list E)
| MissingParameter (error : string)
| InternalServerError (error : string).

Arguments AnalysisBody {E} _ _.
Arguments ValidationErrors {E} _.
Arguments MissingParameter {E} _.
Arguments InternalServerError {E} _.

Record AnalyzeResponse (E : Type) : Type :=
  mkAnalyzeResponse { analyze_status : nat; analyze_body : AnalyzeBody E }.

Arguments mkAnalyzeResponse {E} _ _.
Arguments analyze_status {E} _.
Arguments analyze_body {E} _.

Section Single.

Variable glyphWidth : Font -> JsString -> Q.

(** The errors of express-validator. *)
Variable E : Type.

(** The handler of [/api/analyze], for all methods.  [errors] is
    [validationResult(req).array()], and [query] and [reqBody] are
    [req.query] and [req.body] after the validation chain has run.  Reading
    a property of [null] or [undefined] throws, and the error middleware
    answers 500; its [message] is left out of the model.  The result is
    [None] when a text is outside the model (see [analyze_field]). *)
Definition analyze_endpoint (errors : list E) (method : string) (query reqBody : JsValue)
  : state Store (option (AnalyzeResponse E)) :=
  match errors with
  | _ :: _ => ret (Some (mkAnalyzeResponse 400 (ValidationErrors errors)))
  | [] =>
      let source := if String.eqb method "GET" then query else reqBody in
      match source with
      | JNull | JUndefined =>
          ret (Some (mkAnalyzeResponse 500 (InternalServerError "Internal Server Error")))
      | _ =>
          t <- analyze_field glyphWidth source "title" title ;;
          d <- analyze_field glyphWidth source "description" description ;;
          match t, d with
          | Some response_title, Some response_description =>
              if negb (truthy (prop source "title"))
                 && negb (truthy (prop source "description"))
              then ret (Some (mkAnalyzeResponse 400
                                (MissingParameter
                                   "Please provide either a title or description parameter")))
              else ret (Some (mkAnalyzeResponse 200
                                (AnalysisBody response_title response_description)))
          | _, _ => ret None
          end
      end
  end.

End Single.

(** ** String operations of the WordPress client *)

(** [a === b] on strings. *)
Fixpoint JsString_eqb (a b : JsString) : bool :=
  match a, b with
  | [], [] => true
  | x :: a', y :: b' => N.eqb x y && JsString_eqb a' b'
  | _, _ => false
  end.

(** [s.includes(c)] and [s.split(c)] for a separator [c] of one code unit. *)
Definition includes (s : JsString) (c : CodeUnit) : bool := existsb (N.eqb c) s.

Fixpoint split_on (c : CodeUnit) (s : JsString) : list JsString :=
  match s with
  | [] => [[]]
  | x :: rest =>
      if N.eqb x c then [] :: split_on c rest
      else match split_on c rest with
           | piece :: pieces => (x :: piece) :: pieces
           | [] => [[x]]
           end
  end.

(** The code units that [trim] removes: the white space and the line
    terminators of ECMAScript. *)
Definition is_space (c : CodeUnit) : bool :=
  existsb (N.eqb c)
    [9; 10; 11; 12; 13; 32; 160; 5760; 8232; 8233; 8239; 8287; 12288; 65279]%N
  || ((8192 <=? c)%N && (c <=? 8202)%N).

Fixpoint trimStart (s : JsString) : JsString :=
  match s with
  | [] => []
  | c :: rest => if is_space c then trimStart rest else s
  end.

(** [s.trim()] *)
Definition trim (s : JsString) : JsString := rev (trimStart (rev (trimStart s))).

(** [s.endsWith('/') ? s.slice(0, -1) : s] *)
Definition strip_trailing_slash (s : JsString) : JsString :=
  match rev s with
  | c :: _ => if N.eqb c 47%N then removelast s else s
  | [] => s
  end.

(** ** The WordPress client *)

(** The client and its handler read the properties [id], [date],
    [modified], [title], [name], [rendered], [input], [url] and [types]
    of JSON values; as for the keys of the batch handler, an array, a
    string, a number or a boolean has none of them, which is what [prop]
    gives. *)

(** The object [typeToEndpoint] of [fetchWordPressContent]. *)
Definition typeToEndpoint : list (JsString * JsString) :=
  [ (js "posts", js "posts"); (js "pages", js "pages");
    (js "categories", js "categories"); (js "tags", js "tags");
    (js "users", js "users"); (js "media", js "media");
    (js "menus", js "menus"); (js "comments", js "comments") ].

(** The names of the properties that every object inherits from
    [Object.prototype]. *)
Definition Object_prototype_names : list JsString :=
  [ js "constructor"; js "__defineGetter__"; js "__defineSetter__";
    js "hasOwnProperty"; js "__lookupGetter__"; js "__lookupSetter__";
    js "isPrototypeOf"; js "propertyIsEnumerable"; js "toString";
    js "valueOf"; js "__proto__"; js "toLocaleString" ].

Fixpoint own_endpoint (key : JsString) (table : list (JsString * JsString))
  : option JsString :=
  match table with
  | [] => None
  | (k, v) :: rest => if JsString_eqb k key then Some v else own_endpoint key rest
  end.

(** [typeToEndpoint[key] || 'posts'].  A key that names an inherited
    property gives a function or an object, which the template literal of
    the URL turns into text that depends on the engine: such a key is
    outside the model, [None]. *)
Definition endpoint_for (key : JsString) : option JsString :=
  match own_endpoint key typeToEndpoint with
  | Some endpoint => Some endpoint
  | None =>
      if existsb (JsString_eqb key) Object_prototype_names then None
      else Some (js "posts")
  end.

(** The template literal of [apiUrl]. *)
Definition api_url (siteUrl endpoint : JsString) : JsString :=
  strip_trailing_slash siteUrl ++ js "/wp-json/wp/v2/" ++ endpoint ++ js "?per_page=100".

(** An element of [formattedData]; [title = None] is an object without
    the field. *)
Module WpItem.
Record t : Type := mk {
  id : JsValue;
  date : JsValue;
  modified : JsValue;
  title : option JsValue
}.
End WpItem.

(** The callback of [response.data.map].  Reading [item.id] throws when
    the item is [null]: [None]. *)
Definition format_item (item : JsValue) : option WpItem.t :=
  match item with
  | JNull | JUndefined => None
  | _ =>
      Some (WpItem.mk
              (prop item "id")
              (js_or (prop item "date") JNull)
              (js_or (prop item "modified") JNull)
              (if truthy (prop item "title") then
                 if typeof_object (prop item "title") then
                   Some (js_or (prop (prop item "title") "rendered") (JString []))
                 else Some (js_or (prop item "title") (JString []))
               else if truthy (prop item "name") then
                 Some (js_or (prop item "name") (JString []))
               else None))
  end.

(** [data.map(callback)] on the elements of an array: the first throw
    ends the call. *)
Fixpoint format_items (elements : list JsValue) : option (list WpItem.t) :=
  match elements with
  | [] => Some []
  | item :: rest =>
      match format_item item, format_items rest with
      | Some r, Some rs => Some (r :: rs)
      | _, _ => None
      end
  end.

(** An element of [results]. *)
Module WpResult.
Record t : Type := mk {
  type : JsString;
  data : list WpItem.t;
  count : option nat;       (* absent in the result of a failure *)
  error : option JsString   (* absent in the result of a success *)
}.
End WpResult.

(** What the promise of [httpsGet] settles to: resolved with the parsed
    JSON document ([status] and [headers] are not read by the callers), or
    rejected with an error of the given message. *)
Inductive HttpOutcome : Type :=
| Resolved (data : JsValue)
| Rejected (message : JsString).

(** The places of the [try] block where a TypeError is thrown: the call
    of [response.data.map] on data that is not an array, and the reading
    of [item.id] on an item that is [null]. *)
Inductive TypeErrorSite : Type :=
| MapOfData (data : JsValue)
| IdOfItem.

(** How [fetchWordPressContent] ends: it returns its results, or throws
    (the promise is rejected), or leaves the model. *)
Inductive FetchOutcome : Type :=
| Returned (results : list WpResult.t)
| Threw
| NotModelled.

Section WordPress.

(** The network: [httpsGet(url, timeout)] changes the state of the network
    and settles. *)
Variable Net : Type.
Variable httpsGet : JsString -> Q -> state Net HttpOutcome.

(** [s.toLowerCase()] of the engine. *)
Variable toLowerCase : JsString -> JsString.

(** The message that the engine gives to a TypeError. *)
Variable TypeError_message : TypeErrorSite -> JsString.

(** The body of the [try] and the [catch] for one type, given what the
    request settled to. *)
Definition result_for (type : JsString) (outcome : HttpOutcome) : WpResult.t :=
  let failure (message : JsString) :=
    WpResult.mk (trim type) [] None
      (Some (js "Failed to fetch " ++ type ++ js ": " ++ message)) in
  match outcome with
  | Rejected message => failure message
  | Resolved (JArray elements) =>
      match format_items elements with
      | Some formattedData =>
          WpResult.mk (trim type) formattedData (Some (length formattedData)) None
      | None => failure (TypeError_message IdOfItem)
      end
  | Resolved data => failure (TypeError_message (MapOfData data))
  end.

(** The loop [for (const type of types)] for a site URL that is a string. *)
Fixpoint fetch_types (siteUrl : JsString) (timeout : Q) (types : list JsString)
  : state Net FetchOutcome :=
  match types with
  | [] => ret (Returned [])
  | type :: rest =>
      match endpoint_for (trim (toLowerCase type)) with
      | None => ret NotModelled
      | Some endpoint =>
          outcome <- httpsGet (api_url siteUrl endpoint) timeout ;;
          others <- fetch_types siteUrl timeout rest ;;
          match others with
          | Returned results => ret (Returned (result_for type outcome :: results))
          | other => ret other
          end
      end
  end.

(** [fetchWordPressContent(siteUrl, contentType, timeout)].  A
    [contentType] that is not a string has no callable [includes],
    [split] or [toLowerCase], and a [siteUrl] that is not a string has no
    [endsWith]: the call throws before the first request. *)
Definition fetchWordPressContent (siteUrl contentType : JsValue) (timeout : Q)
  : state Net FetchOutcome :=
  match contentType with
  | JString s =>
      let types := if includes s 44%N then split_on 44%N s else [s] in
      match siteUrl with
      | JString url => fetch_types url timeout types
      | _ => ret Threw
      end
  | _ => ret Threw
  end.

End WordPress.

(** An entry of [response.results]. *)
Module WpSummary.
Record t : Type := mk {
  count : nat;
  items : list WpItem.t;
  error : option JsString   (* [None] is [null] *)
}.
End WpSummary.

(** [obj[key] = value] on an object kept as the list of its properties. *)
Fixpoint assign (key : JsString) (value : WpSummary.t)
    (obj : list (JsString * WpSummary.t)) : list (JsString * WpSummary.t) :=
  match obj with
  | [] => [(key, value)]
  | (k, v) :: rest =>
      if JsString_eqb k key then (k, value) :: rest
      else (k, v) :: assign key value rest
  end.


(** The entry that the handler builds from a result:
    [{ count: result.data?.length || 0, items: result.data || [],
       error: result.error || null }]. *)
Definition summary_of (result : WpResult.t) : WpSummary.t :=
  WpSummary.mk (length (WpResult.data result)) (WpResult.data result)
    (match WpResult.error result with
     | Some (c :: message) => Some (c :: message)
     | _ => None
     end).

(** [results.forEach(result => { response.results[result.type] = ...; })]
    from the empty object. *)
Definition collect_results (results : list WpResult.t) : list (JsString * WpSummary.t) :=
  fold_left (fun obj result => assign (WpResult.type result) (summary_of result) obj)
    results [].

(** The JSON documents that the handler of [/api/GetWebUrls] sends. *)
Inductive WpBody : Type :=
| WpContent (url : JsValue) (results : list (JsString * WpSummary.t)) (timestamp : string)
| WpFailure (error : string).

Record WpResponse : Type := mkWpResponse { wp_status : nat; wp_body : WpBody }.

Section GetWebUrlsHandler.

Variable Net : Type.
Variable httpsGet : JsString -> Q -> state Net HttpOutcome.
Variable toLowerCase : JsString -> JsString.
Variable TypeError_message : TypeErrorSite -> JsString.

(** The handler of [/api/GetWebUrls], for all methods.  [now] is the value
    of [new Date().toISOString()].  The [success] flag and the [message]
    of the failures are left out: [success] is [true] exactly in the
    response of status 200.  A type named [__proto__] is outside the model
    (see [endpoint_for]), so that every assignment to [response.results]
    sets a property. *)
Definition GetWebUrls (now : string) (method : string) (query reqBody : JsValue)
  : state Net (option WpResponse) :=
  let received := if String.eqb method "GET" then query else reqBody in
  match received with
  | JNull | JUndefined =>
      ret (Some (mkWpResponse 500 (WpFailure "Failed to fetch WordPress content")))
  | _ =>
      let requestData :=
        if truthy (prop received "input") && typeof_object (prop received "input")
        then prop received "input" else received in
      let siteUrl := prop requestData "url" in
      let contentTypes := js_or (prop requestData "types") (JString (js "posts")) in
      if negb (truthy siteUrl) then
        ret (Some (mkWpResponse 400 (WpFailure "Missing required parameter: url")))
      else
        outcome <- fetchWordPressContent Net httpsGet toLowerCase TypeError_message
                     siteUrl contentTypes 10000 ;;
        match outcome with
        | Returned results =>
            ret (Some (mkWpResponse 200 (WpContent siteUrl (collect_results results) now)))
        | Threw =>
            ret (Some (mkWpResponse 500 (WpFailure "Failed to fetch WordPress content")))
        | NotModelled => ret None
        end
  end.

End GetWebUrlsHandler.

(** * Notions of the statements *)

(** The font that the analyzer sets for a field kind. *)
Definition settings_font (settings : Settings) : Font :=
  mkFont (fontSize settings) (fontFamily settings).

(** The width that [measureTextWidth] returns for a field kind, before
    any rounding. *)
Definition measuredWidth (glyphWidth : Font -> JsString -> Q)
    (text : JsString) (type : MetaType) : Q :=
  glyphWidth (settings_font (META_SETTINGS type)) text.

(** ** The truncation scan *)

Section ScanModel.

(** The width of a string in the font of the scanning context. *)
Variable width : JsString -> Q.
Variable text : JsString.
Variable budget : Q.

(** The scan without the store: the value of [i] after at most [fuel]
    turns of the loop. *)
Fixpoint scan_from (fuel : nat) (i : nat) : nat :=
  match fuel with
  | O => i
  | S fuel' =>
      if (i <? length text)%nat then
        if Qgtb (width (slice text 0 (i + 1))) budget then i
        else scan_from fuel' (i + 1)%nat
      else i
  end.

(** The loop as a relation, with no bound on the number of turns:
    [while_scan i j] when the loop entered with the counter at [i] is
    left with the counter at [j]. *)
Inductive while_scan : nat -> nat -> Prop :=
| scan_end (i : nat) :
    (length text <= i)%nat -> while_scan i i
| scan_break (i : nat) :
    (i < length text)%nat -> budget < width (slice text 0 (i + 1)) -> while_scan i i
| scan_next (i j : nat) :
    (i < length text)%nat -> width (slice text 0 (i + 1)) <= budget ->
    while_scan (i + 1) j -> while_scan i j.

End ScanModel.

(** ** What a call of the analyzer returns *)

Section Returned.

Variable glyphWidth : Font -> JsString -> Q.

(** The value of [i] after the scan of a truncated text. *)
Definition truncation_index (text : JsString) (type : MetaType) : nat :=
  let settings := META_SETTINGS type in
  scan_from (glyphWidth (settings_font settings)) text (scan_budget settings)
    (length text) 0.

(** The record that [analyzeText] returns, as a function of the text, the
    field kind and the glyph metrics alone. *)
Definition analysis (text : JsString) (type : MetaType) : Result.t :=
  let settings := META_SETTINGS type in
  let pixelWidth := measuredWidth glyphWidth text type in
  let isTruncated := Qgtb pixelWidth (maxPixels settings) in
  let isTooShort := is_description type && lt_minPixels pixelWidth settings in
  {| Result.pixelWidth := Math_round pixelWidth;
     Result.characterCount := length text;
     Result.isTruncated := isTruncated;
     Result.truncatedText :=
       if isTruncated then slice text 0 (truncation_index text type) ++ js "..."
       else text;
     Result.isOptimal := negb isTruncated && (negb (is_description type) || negb isTooShort);
     Result.recommendedMaxChars :=
       Math_floor (js_div (Finite (maxPixels settings))
                          (js_div (Finite pixelWidth) (length_number text)));
     Result.maxPixels := maxPixels settings;
     Result.minPixels := if is_description type then minPixels settings else None;
     Result.isTooShort := if is_description type then Some isTooShort else None |}.

(** The contexts that a call allocates: one for the measurement of the
    full text, and one more for the scan when the text is truncated. *)
Definition allocated (text : JsString) (type : MetaType) : Store :=
  let settings := META_SETTINGS type in
  if Qgtb (measuredWidth glyphWidth text type) (maxPixels settings)
  then [settings_font settings; settings_font settings]
  else [settings_font settings].

(** The outcome of the scan for a truncated text: the preview is the
    prefix of length [i] and the three full stops, where [i] is the value
    of the counter when the loop is left; every prefix up to length [i]
    fits the reduced budget and the prefix of length [i + 1] does not. *)
Definition truncation_outcome (text : JsString) (type : MetaType) (r : Result.t) : Prop :=
  let width := glyphWidth (settings_font (META_SETTINGS type)) in
  let budget := maxPixels (META_SETTINGS type) - 5 in
  exists i : nat,
    (i < length text)%nat /\
    Result.truncatedText r = slice text 0 i ++ js "..." /\
    while_scan width text budget 0 i /\
    (forall k, (k <= i)%nat -> width (slice text 0 k) <= budget) /\
    budget < width (slice text 0 (i + 1)) /\
    endsWith (Result.truncatedText r) (js "...").

End Returned.

(** The estimate computed from the fields of a result: the average width
    taken from the rounded [pixelWidth]. *)
Definition recommended_from_rounded (r : Result.t) : JsNumber :=
  Math_floor
    (js_div (Finite (Result.maxPixels r))
            (js_div (Finite (inject_Z (Result.pixelWidth r)))
                    (Finite (inject_Z (Z.of_nat (Result.characterCount r)))))).

(** The record for the empty text when the empty string measures 0. *)
Definition empty_text_result (type : MetaType) : Result.t :=
  {| Result.pixelWidth := 0;
     Result.characterCount := 0;
     Result.isTruncated := false;
     Result.truncatedText := [];
     Result.isOptimal := negb (is_description type);
     Result.recommendedMaxChars := NaN;
     Result.maxPixels := maxPixels (META_SETTINGS type);
     Result.minPixels := if is_description type then minPixels (META_SETTINGS type) else None;
     Result.isTooShort := if is_description type then Some true else None |}.

(** The character U+2026 HORIZONTAL ELLIPSIS, one code unit. *)
Definition HORIZONTAL_ELLIPSIS : JsString := [8230%N].

(** ** Batches *)

(** The texts of an item are strings: a [title] or [description] that is
    truthy is a string, as the documentation of the endpoint asks. *)
Definition text_or_absent (v : JsValue) : bool :=
  negb (truthy v) || match v with JString _ => true | _ => false end.

Definition texts_are_strings (item : JsValue) : bool :=
  text_or_absent (prop item "title") && text_or_absent (prop item "description").

(** An item that is not an object, or an object with neither a [title]
    nor a [description]. *)
Definition malformed (item : JsValue) : Prop :=
  truthy item = false \/ typeof_object item = false \/
  (prop item "title" = JUndefined /\ prop item "description" = JUndefined).

(** A result entry that is only an error marker. *)
Definition error_marker (r : Item.t) : Prop :=
  Item.error r <> None /\ Item.title r = None /\ Item.description r = None.

(** The entry of an item processed on its own, from the empty store. *)
Definition entry (glyphWidth : Font -> JsString -> Q) (item : JsValue) : option Item.t :=
  evalState (process_item glyphWidth item) [].

(** The response to a batch that is accepted: status 200, one entry for
    each item in the order of the items, [count] the number of items;
    each entry is what its item gives when processed on its own, and a
    malformed item has an error marker for entry. *)
Definition batch_outcome (glyphWidth : Font -> JsString -> Q) (now : string)
    (items : list JsValue) (response : option Response) : Prop :=
  exists results : list Item.t,
    response = Some (mkResponse 200 (BatchBody results (length items) now)) /\
    length results = length items /\
    Forall2 (fun item r => entry glyphWidth item = Some r /\
                           (malformed item -> error_marker r))
            items results.

(** A value in which the handler of the batch endpoint finds an array of
    items: an array, or an object with an array for [items]. *)
Definition holds_items (v : JsValue) : bool :=
  truthy v && typeof_object v
  && (isArray v || (truthy (prop v "items") && isArray (prop v "items"))).

(** The array found in such a value. *)
Definition items_in (v : JsValue) : JsValue :=
  if isArray v then v else prop v "items".

(** The field that [analyze_field] returns, from the empty store. *)
Definition field_value (glyphWidth : Font -> JsString -> Q)
    (item : JsValue) (key : string) (type : MetaType) : option (option Result.t) :=
  evalState (analyze_field glyphWidth item key type) [].

(** The value in which the handler of [/api/analyze] reads its
    parameters: [req.query] for GET, [req.body] for the other methods. *)
Definition request_source (method : string) (query reqBody : JsValue) : JsValue :=
  if String.eqb method "GET" then query else reqBody.

(** What the handler of [/api/analyze] answers when it reads its
    parameters in a value [source] that is neither [null] nor
    [undefined]. *)
Definition analyze_answer (glyphWidth : Font -> JsString -> Q) (E : Type)
    (source : JsValue) : option (AnalyzeResponse E) :=
  match field_value glyphWidth source "title" title,
        field_value glyphWidth source "description" description with
  | Some t, Some d =>
      if negb (truthy (prop source "title")) && negb (truthy (prop source "description"))
      then Some (mkAnalyzeResponse 400
                   (MissingParameter "Please provide either a title or description parameter"))
      else Some (mkAnalyzeResponse 200 (AnalysisBody t d))
  | _, _ => None
  end.

(** The request data of [/api/GetWebUrls]: what was received, or its
    [input] when that is an object. *)
Definition wp_request_data (received : JsValue) : JsValue :=
  if truthy (prop received "input") && typeof_object (prop received "input")
  then prop received "input" else received.

(** [typeof v === 'string'] *)
Definition is_string (v : JsValue) : bool :=
  match v with JString _ => true | _ => false end.


(** The list [types] of [fetchWordPressContent] for a string. *)
Definition types_of (s : JsString) : list JsString :=
  if includes s 44%N then split_on 44%N s else [s].

(** A result of [fetchWordPressContent] is a success, with the count of
    its data and no error, or a failure, with an error that is not empty,
    no data and no count. *)
Definition success_or_failure (r : WpResult.t) : Prop :=
  (WpResult.error r = None /\ WpResult.count r = Some (length (WpResult.data r)))
  \/
  (exists c message, WpResult.error r = Some (c :: message)
                     /\ WpResult.data r = [] /\ WpResult.count r = None).

(** ** Sample inputs *)

(** A synthetic metrics provider: a fixed-pitch face in which every code
    unit advances by [advance] pixels, whatever the font. *)
Definition fixedPitch (advance : Q) : Font -> JsString -> Q :=
  fun _ text => advance * inject_Z (Z.of_nat (length text)).

(** A title of 64 code units and a description of 64 code units. *)
Definition sample_title : JsString :=
  js "Best Hiking Boots for Winter: A Complete Buyer Guide and Reviews".

Definition sample_description : JsString :=
  js "Compare prices, read reviews and find the boots that fit in 2024".

(** A title of 72 code units, too wide for the budget at 10 pixels a unit. *)
Definition long_title : JsString :=
  js "Your Meta Title Your Meta Title Your Meta Title Your Meta Title abcdefgh".

(** A batch of four items: a title, an object with neither text, a
    number, and a description. *)
Definition sample_items : list JsValue :=
  [ JObject [("id"%string, JString (js "page1"));
             ("title"%string, JString (js "First Page Title"))];
    JObject [("id"%string, JNumber 0)];
    JNumber 42;
    JObject [("description"%string, JString (js "Another description example"))] ].

Definition sample_batch : JsValue := JObject [("items"%string, JArray sample_items)].

Definition empty_batch : JsValue := JObject [("items"%string, JArray [])].


Definition sample_now : string := "2023-05-01T12:34:56.789Z".

(** An item posted on its own. *)
Definition single_item : JsValue :=
  JObject [("id"%string, JString (js "page1"));
           ("title"%string, JString (js "First Page Title"));
           ("description"%string, JString (js "Another description example"))].

(** A body that wraps the items of a batch twice. *)
Definition wrapped_batch : JsValue :=
  JObject [("source"%string, JString (js "assistant"));
           ("payload"%string, JObject [("items"%string, JArray sample_items)])].

(** A lower-casing of the ASCII letters, which is what [toLowerCase] does
    on a string of ASCII. *)
Definition ascii_toLowerCase (s : JsString) : JsString :=
  map (fun c => if ((65 <=? c) && (c <=? 90))%N then (c + 32)%N else c) s.

(** The messages of V8 for the two TypeErrors. *)
Definition v8_message (site : TypeErrorSite) : JsString :=
  match site with
  | MapOfData JNull => js "Cannot read properties of null (reading 'map')"
  | MapOfData _ => js "response.data.map is not a function"
  | IdOfItem => js "Cannot read properties of null (reading 'id')"
  end.

(** A post and a category as the WordPress REST API sends them. *)
Definition sample_post : JsValue :=
  JObject [("id"%string, JNumber 7);
           ("date"%string, JString (js "2024-01-15T10:00:00"));
           ("modified"%string, JString (js "2024-02-01T09:30:00"));
           ("title"%string, JObject [("rendered"%string, JString (js "Hello world"))])].

Definition sample_category : JsValue :=
  JObject [("id"%string, JNumber 3); ("name"%string, JString (js "News"))].

(** A network that keeps the list of the URLs requested, answers the
    posts of [https://example.com] with one post, its categories with one
    category, and rejects every other request. *)
Definition sample_network (url : JsString) (timeout : Q)
  : state (list JsString) HttpOutcome :=
  requested <- get ;;
  put (requested ++ [url]) ;;
  if JsString_eqb url (js "https://example.com/wp-json/wp/v2/posts?per_page=100")
  then ret (Resolved (JArray [sample_post]))
  else if JsString_eqb url (js "https://example.com/wp-json/wp/v2/categories?per_page=100")
  then ret (Resolved (JArray [sample_category]))
  else ret (Rejected (js "getaddrinfo ENOTFOUND")).

(** A request for the posts, the categories and an unknown type. *)
Definition sample_wp_request : JsValue :=
  JObject [("url"%string, JString (js "https://example.com/"));
           ("types"%string, JString (js "posts, Categories,events"))].

(** What [format_item] makes of the sample post. *)
Definition sample_post_item : WpItem.t :=
  WpItem.mk (JNumber 7) (JString (js "2024-01-15T10:00:00"))
    (JString (js "2024-02-01T09:30:00")) (Some (JString (js "Hello world"))).

(** * Properties *)

(** ** Comparisons of numbers *)

Lemma Qgtb_true (a b : Q) : Qgtb a b = true <-> b < a.
Proof.
  unfold Qgtb. rewrite negb_true_iff, <- not_true_iff_false, Qle_bool_iff.
  split; [apply Qnot_le_lt | apply Qlt_not_le].
Qed.

Lemma Qgtb_false (a b : Q) : Qgtb a b = false <-> a <= b.
Proof.
  unfold Qgtb. rewrite negb_false_iff. apply Qle_bool_iff.
Qed.

Lemma Qltb_true (a b : Q) : Qltb a b = true <-> a < b.
Proof. apply (Qgtb_true b a). Qed.

Lemma Qltb_false (a b : Q) : Qltb a b = false <-> b <= a.
Proof. apply (Qgtb_false b a). Qed.

Lemma Qis_zero_true (a : Q) : Qis_zero a = true <-> a == 0.
Proof. apply Qeq_bool_iff. Qed.

Lemma Qis_zero_false (a : Q) : Qis_zero a = false <-> ~ a == 0.
Proof.
  unfold Qis_zero. rewrite <- not_true_iff_false, Qeq_bool_iff. reflexivity.
Qed.

(** ** Rounding *)

Lemma Math_round_gt (q : Q) (n : Z) :
  inject_Z n < inject_Z (Math_round q) -> inject_Z n < q.
Proof.
  unfold Math_round. intros H. rewrite <- Zlt_Qlt in H.
  assert (Hn : inject_Z (n + 1) <= inject_Z (Qfloor (q + (1 # 2)))).
  { rewrite <- Zle_Qle. lia. }
  pose proof (Qfloor_le (q + (1 # 2))) as Hfloor.
  rewrite inject_Z_plus in Hn. change (inject_Z 1) with 1 in Hn. lra.
Qed.

Lemma Math_round_lt (q : Q) (n : Z) :
  inject_Z (Math_round q) < inject_Z n -> q < inject_Z n.
Proof.
  unfold Math_round. intros H. rewrite <- Zlt_Qlt in H.
  assert (Hn : inject_Z (Qfloor (q + (1 # 2)) + 1) <= inject_Z n).
  { rewrite <- Zle_Qle. lia. }
  pose proof (Qlt_floor (q + (1 # 2))) as Hfloor. lra.
Qed.

Lemma Math_round_nonneg (q : Q) : 0 <= q -> (0 <= Math_round q)%Z.
Proof.
  intros Hq. unfold Math_round. change 0%Z with (Qfloor 0).
  apply Qfloor_resp_le. lra.
Qed.

(** ** Division of doubles *)

Lemma half_even_bounds (q : Q) :
  inject_Z (Qfloor q) <= inject_Z (half_even q) /\
  inject_Z (half_even q) <= q + (1 # 2).
Proof.
  unfold half_even. cbv zeta.
  pose proof (Qfloor_le q) as Hle. pose proof (Qlt_floor q) as Hlt.
  rewrite inject_Z_plus in Hlt. change (inject_Z 1) with 1 in Hlt.
  destruct (Qcompare_spec (q - inject_Z (Qfloor q)) (1 # 2)) as [H|H|H].
  - destruct (Z.even (Qfloor q)); rewrite ?inject_Z_plus; change (inject_Z 1) with 1;
      split; lra.
  - split; lra.
  - rewrite inject_Z_plus. change (inject_Z 1) with 1. split; lra.
Qed.

Lemma pow2_pos (e : Z) : 0 < 2 ^ e.
Proof. apply Qpower_0_lt. reflexivity. Qed.

Lemma pow2_succ (e : Z) : 2 ^ (e + 1) == 2 * 2 ^ e.
Proof. rewrite Qpower_plus by discriminate. change (2 ^ 1) with 2. ring. Qed.

Lemma pow2_le (a b : Z) : (a <= b)%Z -> 2 ^ a <= 2 ^ b.
Proof. intros H. apply Qpower_le_compat_l; [exact H | discriminate]. Qed.

Lemma pow2_lt_inv (a b : Z) : 2 ^ a < 2 ^ b -> (a < b)%Z.
Proof.
  intros H. destruct (Z.lt_ge_cases a b) as [Hlt|Hge]; [exact Hlt|].
  exfalso. apply (Qlt_not_le _ _ H). now apply pow2_le.
Qed.

Lemma Q_as_quotient (q : Q) : q == inject_Z (Qnum q) / inject_Z (Zpos (Qden q)).
Proof. destruct q as [n d]. cbn [Qnum Qden]. rewrite <- Qmake_Qdiv. reflexivity. Qed.

Lemma pow2_log2 (n : Z) :
  (0 < n)%Z -> 2 ^ Z.log2 n <= inject_Z n /\ inject_Z n < 2 ^ (Z.log2 n + 1).
Proof.
  intros Hn. destruct (Z.log2_spec n Hn) as [Hlo Hhi].
  pose proof (Z.log2_nonneg n) as Hnonneg.
  rewrite <- !(Zpower_Qpower 2) by lia. change (inject_Z 2) with 2.
  fold (Z.succ (Z.log2 n)). split; [now rewrite <- Zle_Qle | now rewrite <- Zlt_Qlt].
Qed.

Lemma Qlog2_spec (q : Q) : 0 < q -> 2 ^ Qlog2 q <= q /\ q < 2 ^ (Qlog2 q + 1).
Proof.
  intros Hq. unfold Qlog2. cbv zeta.
  set (n := Qnum q). set (d := Zpos (Qden q)).
  assert (Hn : (0 < n)%Z).
  { unfold n. destruct q as [qn qd]. unfold Qlt in Hq. cbn in *. lia. }
  destruct (pow2_log2 n Hn) as [Hnlo Hnhi].
  destruct (pow2_log2 d eq_refl) as [Hdlo Hdhi].
  assert (Hd : 0 < inject_Z d) by reflexivity.
  set (a := Z.log2 n) in *. set (b := Z.log2 d) in *.
  assert (Hquot : q * inject_Z d == inject_Z n).
  { rewrite (Q_as_quotient q) at 1. fold n d. field. intros H. rewrite H in Hd. discriminate Hd. }
  assert (Hsplit : 2 ^ (a - b + 1) * 2 ^ b == 2 ^ (a + 1)).
  { rewrite <- Qpower_plus by discriminate. now replace (a - b + 1 + b)%Z with (a + 1)%Z by lia. }
  assert (Hsplit' : 2 ^ (a - b - 1) * 2 ^ (b + 1) == 2 ^ a).
  { rewrite <- Qpower_plus by discriminate. now replace (a - b - 1 + (b + 1))%Z with a by lia. }
  pose proof (pow2_pos (a - b + 1)) as P1. pose proof (pow2_pos (a - b - 1)) as P2.
  pose proof (pow2_pos b) as P3.
  assert (Hupper : q < 2 ^ (a - b + 1)).
  { apply (Qmult_lt_r _ _ (inject_Z d) Hd). rewrite Hquot.
    apply Qlt_le_trans with (2 ^ (a + 1)); [exact Hnhi|].
    rewrite <- Hsplit. apply Qmult_le_l; [exact P1 | exact Hdlo]. }
  assert (Hlower : 2 ^ (a - b - 1) <= q).
  { apply (Qmult_le_r _ _ (inject_Z d) Hd). rewrite Hquot.
    apply Qle_trans with (2 ^ a); [|exact Hnlo].
    rewrite <- Hsplit'. apply Qmult_le_l; [exact P2 | now apply Qlt_le_weak]. }
  destruct (Qle_bool (2 ^ (a - b)) q) eqn:Htest.
  - apply Qle_bool_iff in Htest. split; assumption.
  - split; [exact Hlower|]. replace (a - b - 1 + 1)%Z with (a - b)%Z by lia.
    apply Qnot_le_lt. intros H. apply Qle_bool_iff in H. congruence.
Qed.

Lemma half_even_nonneg (q : Q) : 0 <= q -> 0 <= inject_Z (half_even q).
Proof.
  intros Hq. apply Qle_trans with (inject_Z (Qfloor q)); [|apply half_even_bounds].
  change 0 with (inject_Z 0). rewrite <- Zle_Qle. change 0%Z with (Qfloor 0).
  now apply Qfloor_resp_le.
Qed.

Lemma round_positive_cases (q : Q) :
  let ulp := 2 ^ (Z.max (Qlog2 q - 52) (-1074)) in
  let r := inject_Z (half_even (q / ulp)) * ulp in
  (round_positive q = PosInfinity /\ 2 ^ 1024 <= r) \/
  (exists r', round_positive q = Finite r' /\ r' == r /\ r < 2 ^ 1024).
Proof.
  cbv zeta. unfold round_positive. cbv zeta.
  destruct (Qle_bool (2 ^ 1024) _) eqn:Htest.
  - left. split; [reflexivity | now apply Qle_bool_iff].
  - right. eexists. split; [reflexivity|]. split; [apply Qred_correct|].
    apply Qnot_le_lt. intros H. apply Qle_bool_iff in H. congruence.
Qed.

Lemma round_positive_sign (q : Q) :
  0 < q ->
  (exists r, round_positive q = Finite r /\ 0 <= r) \/ round_positive q = PosInfinity.
Proof.
  intros Hq. destruct (round_positive_cases q) as [[H _] | (r & H & Hr & _)];
    [now right | left].
  exists r. split; [exact H|]. rewrite Hr.
  pose proof (pow2_pos (Z.max (Qlog2 q - 52) (-1074))) as Hulp.
  apply Qmult_le_0_compat; [|now apply Qlt_le_weak].
  apply half_even_nonneg. apply Qle_shift_div_l; [exact Hulp|]. lra.
Qed.

Lemma round_positive_lower (q r : Q) :
  0 < q -> (-1022 <= Qlog2 q)%Z -> round_positive q = Finite r -> 2 ^ Qlog2 q <= r.
Proof.
  intros Hq He Hround.
  destruct (round_positive_cases q) as [[H _] | (r' & H & Hr & _)]; [congruence|].
  rewrite Hround in H. injection H as <-. rewrite Hr.
  replace (Z.max (Qlog2 q - 52) (-1074)) with (Qlog2 q - 52)%Z by lia.
  destruct (Qlog2_spec q Hq) as [Hlo _].
  pose proof (pow2_pos (Qlog2 q - 52)) as Hulp.
  assert (Hsplit : 2 ^ 52 * 2 ^ (Qlog2 q - 52) == 2 ^ Qlog2 q).
  { rewrite <- Qpower_plus by discriminate.
    now replace (52 + (Qlog2 q - 52))%Z with (Qlog2 q) by lia. }
  rewrite <- Hsplit. apply Qmult_le_compat_r; [|now apply Qlt_le_weak].
  apply Qle_trans with (inject_Z (Qfloor (q / 2 ^ (Qlog2 q - 52))));
    [|apply half_even_bounds].
  change (2 ^ 52) with (inject_Z (2 ^ 52)). rewrite <- Zle_Qle.
  rewrite <- (Qfloor_Z (2 ^ 52)) at 1. apply Qfloor_resp_le.
  apply Qle_shift_div_l; [exact Hulp|].
  change (inject_Z (2 ^ 52)) with (2 ^ 52). now rewrite Hsplit.
Qed.

Lemma round_positive_finite (q : Q) :
  0 < q -> q <= 2 ^ 1000 -> exists r, round_positive q = Finite r /\ 0 <= r.
Proof.
  intros Hq Hsmall.
  destruct (round_positive_sign q Hq) as [H|H]; [exact H|]. exfalso.
  destruct (round_positive_cases q) as [[_ Hbig] | (r' & H' & _)]; [|congruence].
  destruct (Qlog2_spec q Hq) as [Hlo _].
  assert (He : (Qlog2 q < 1001)%Z).
  { apply pow2_lt_inv. apply Qle_lt_trans with q; [exact Hlo|].
    apply Qle_lt_trans with (2 ^ 1000); [exact Hsmall | reflexivity]. }
  set (u := Z.max (Qlog2 q - 52) (-1074)) in *.
  pose proof (pow2_pos u) as Hulp.
  assert (Hu : 2 ^ u <= 2 ^ 948) by (apply pow2_le; lia).
  destruct (half_even_bounds (q / 2 ^ u)) as [_ Hm].
  assert (Hr : inject_Z (half_even (q / 2 ^ u)) * 2 ^ u <= q + (1 # 2) * 2 ^ u).
  { apply Qle_trans with ((q / 2 ^ u + (1 # 2)) * 2 ^ u).
    - apply Qmult_le_compat_r; [exact Hm | now apply Qlt_le_weak].
    - apply Qle_lteq. right. field. intros H0. rewrite H0 in Hulp. discriminate Hulp. }
  assert (Hnum : 2 ^ 1000 + (1 # 2) * 2 ^ 948 < 2 ^ 1024) by reflexivity.
  set (x := 2 ^ u) in *. set (m := inject_Z (half_even (q / x))) in *.
  set (big := 2 ^ 1024) in *. set (b1 := 2 ^ 1000) in *. set (b2 := 2 ^ 948) in *.
  lra.
Qed.

Lemma round_to_double_positive (q : Q) : 0 < q -> round_to_double q = round_positive q.
Proof. intros Hq. unfold round_to_double. now rewrite (proj1 (Qgt_alt q 0) Hq). Qed.

Lemma round_to_double_zero (q : Q) : q == 0 -> round_to_double q = Finite 0.
Proof. intros Hq. unfold round_to_double. now rewrite (proj1 (Qeq_alt q 0) Hq). Qed.

(** The rounding at known doubles: [0.1] and [1 / 3]; the halfway point
    below [2 ^ 1024] goes to [Infinity] and the rational just under it to
    the largest double; half of the smallest subnormal goes to 0 and three
    halves of it to its double, the even neighbours; [2 ^ 53 + 1] goes to
    the even [2 ^ 53]. *)
Example round_to_double_examples :
  round_to_double (1 / 10) = Finite (3602879701896397 # 36028797018963968) /\
  round_to_double (1 / 3) = Finite (6004799503160661 # 18014398509481984) /\
  round_to_double (- (1 / 3)) = Finite (- (6004799503160661 # 18014398509481984)) /\
  round_to_double (2 ^ 1024 - 2 ^ 970) = PosInfinity /\
  round_to_double (2 ^ 1024 - 2 ^ 970 - 1) = Finite (Qred (2 ^ 1024 - 2 ^ 971)) /\
  round_to_double (2 ^ (-1075)) = Finite 0 /\
  round_to_double (3 * 2 ^ (-1075)) = Finite (Qred (2 ^ (-1073))) /\
  round_to_double (2 ^ 53 + 1) = Finite (Qred (2 ^ 53)).
Proof. repeat split; vm_compute; reflexivity. Qed.

(** ** Prefixes *)

Lemma slice_prefix (text : JsString) (n : nat) : slice text 0 n = firstn n text.
Proof. unfold slice. now rewrite Nat.sub_0_r. Qed.

Lemma slice_empty (text : JsString) : slice text 0 0 = [].
Proof. reflexivity. Qed.

Lemma slice_length (text : JsString) (n : nat) :
  (n <= length text)%nat -> length (slice text 0 n) = n.
Proof. intros H. rewrite slice_prefix, length_firstn. lia. Qed.

(** ** The store of contexts *)

Lemma store_update_fresh (st : Store) (d f : Font) :
  store_update (st ++ [d]) (length st) f = st ++ [f].
Proof.
  induction st as [|g st IH]; simpl; [reflexivity|]. now rewrite IH.
Qed.

Lemma store_font_fresh (st : Store) (f : Font) :
  store_font (st ++ [f]) (length st) = f.
Proof.
  unfold store_font. rewrite app_nth2 by lia. now rewrite Nat.sub_diag.
Qed.

(** A context keeps its font when later contexts are allocated. *)
Lemma store_font_older (st : Store) (f g : Font) :
  store_font ((st ++ [f]) ++ [g]) (length st) = f.
Proof.
  unfold store_font. rewrite app_nth1 by (rewrite length_app; simpl; lia).
  apply store_font_fresh.
Qed.

(** ** Runs of the canvas operations *)

Section Runs.

Variable glyphWidth : Font -> JsString -> Q.

Lemma createContext_run (size : Q) (family : string) (st : Store) :
  runState (createContext size family) st = (length st, st ++ [mkFont size family]).
Proof.
  unfold createContext, createCanvas_getContext, set_font. cbn.
  now rewrite store_update_fresh.
Qed.

Lemma measureText_run (ctx : Context2d) (text : JsString) (st : Store) :
  runState (measureText glyphWidth ctx text) st
  = (glyphWidth (store_font st ctx) text, st).
Proof. reflexivity. Qed.

Lemma measureTextWidth_run (text : JsString) (size : Q) (family : string) (st : Store) :
  runState (measureTextWidth glyphWidth text size family) st
  = (glyphWidth (mkFont size family) text, st ++ [mkFont size family]).
Proof.
  unfold measureTextWidth. cbn [bind Monad_state runState].
  rewrite createContext_run. cbn [fst snd]. rewrite measureText_run.
  now rewrite store_font_fresh.
Qed.

End Runs.

(** ** The truncation scan *)

Section Scan.

(** The width of a string in the font of the scanning context. *)
Variable width : JsString -> Q.
Variable text : JsString.
Variable budget : Q.

(** [text.length - i] turns are enough: the bounded scan is the loop. *)
Lemma scan_from_while (fuel i : nat) :
  (length text - i <= fuel)%nat -> while_scan width text budget i (scan_from width text budget fuel i).
Proof.
  revert i. induction fuel as [|fuel IH]; intros i Hfuel; simpl.
  - apply scan_end. lia.
  - destruct (Nat.ltb_spec i (length text)) as [Hlt|Hge].
    + destruct (Qgtb (width (slice text 0 (i + 1))) budget) eqn:Hw.
      * apply scan_break; [exact Hlt | now apply Qgtb_true].
      * apply scan_next; [exact Hlt | now apply Qgtb_false | apply IH; lia].
    + now apply scan_end.
Qed.

(** More fuel than needed changes nothing. *)
Lemma scan_from_fuel (fuel fuel' i : nat) :
  (length text - i <= fuel)%nat -> (length text - i <= fuel')%nat ->
  scan_from width text budget fuel i = scan_from width text budget fuel' i.
Proof.
  revert fuel' i. induction fuel as [|fuel IH]; intros [|fuel'] i H H'; simpl;
    try reflexivity.
  - destruct (Nat.ltb_spec i (length text)); [lia | reflexivity].
  - destruct (Nat.ltb_spec i (length text)); [lia | reflexivity].
  - destruct (Nat.ltb_spec i (length text)); [|reflexivity].
    destruct (Qgtb _ _); [reflexivity | apply IH; lia].
Qed.

(** The loop has one result. *)
Lemma while_scan_functional (i j j' : nat) :
  while_scan width text budget i j -> while_scan width text budget i j' -> j = j'.
Proof.
  intros H. revert j'.
  induction H as [i Hlen | i Hlt Hw | i j Hlt Hw Hrest IH]; intros j' H';
    inversion H' as [i' Hlen' | i' Hlt' Hw' | i' k' Hlt' Hw' Hrest']; subst;
    try reflexivity; try lia.
  - exfalso. exact (Qlt_not_le _ _ Hw Hw').
  - exfalso. exact (Qlt_not_le _ _ Hw' Hw).
  - now apply IH.
Qed.

(** What holds when the loop is left. *)
Lemma while_scan_post (i j : nat) :
  while_scan width text budget i j ->
  (i <= j)%nat /\
  (j <= Nat.max i (length text))%nat /\
  (forall k, (i < k <= j)%nat -> width (slice text 0 k) <= budget) /\
  ((j < length text)%nat -> budget < width (slice text 0 (j + 1))).
Proof.
  induction 1 as [i Hlen | i Hlt Hw | i j Hlt Hw Hrest IH].
  - split; [lia|]. split; [lia|]. split; intros; lia.
  - split; [lia|]. split; [lia|]. split; [intros; lia | intros _; exact Hw].
  - destruct IH as (Hij & Hjmax & Hin & Hout).
    split; [lia|]. split; [lia|]. split; [|exact Hout].
    intros k Hk. destruct (Nat.eq_dec k (i + 1)) as [->|Hne]; [exact Hw|].
    apply Hin. lia.
Qed.

End Scan.

Section LoopRun.

Variable glyphWidth : Font -> JsString -> Q.

(** The loop reads the store and leaves it as it is. *)
Lemma truncation_loop_run (ctx : Context2d) (text : JsString) (budget : Q)
    (fuel i : nat) (st : Store) :
  runState (truncation_loop glyphWidth ctx text budget fuel i) st
  = (scan_from (glyphWidth (store_font st ctx)) text budget fuel i, st).
Proof.
  revert i. induction fuel as [|fuel IH]; intros i; simpl; [reflexivity|].
  destruct (i <? length text)%nat; [|reflexivity].
  cbn [bind Monad_state runState].
  destruct (Qgtb _ _); [reflexivity | apply IH].
Qed.

End LoopRun.

(** ** What a call of the analyzer returns *)

Section Analysis.

Variable glyphWidth : Font -> JsString -> Q.

Lemma analyzeText_run (text : JsString) (type : MetaType) (st : Store) :
  runState (analyzeText glyphWidth text type) st
  = (analysis glyphWidth text type, st ++ allocated glyphWidth text type).
Proof.
  unfold analyzeText, analysis, allocated, truncation_index, measuredWidth.
  cbn [bind Monad_state runState].
  rewrite measureTextWidth_run. cbn [fst snd]. fold (settings_font (META_SETTINGS type)).
  destruct (Qgtb _ _) eqn:Htrunc.
  - cbn [bind Monad_state runState].
    rewrite createContext_run. cbn [fst snd].
    rewrite truncation_loop_run. cbn [fst snd ret].
    fold (settings_font (META_SETTINGS type)).
    rewrite store_font_fresh, <- app_assoc. reflexivity.
  - reflexivity.
Qed.

Lemma analyzeText_eval (text : JsString) (type : MetaType) (st : Store) :
  evalState (analyzeText glyphWidth text type) st = analysis glyphWidth text type.
Proof. unfold evalState. now rewrite analyzeText_run. Qed.

End Analysis.

(** ** Suffixes *)

Lemma endsWith_last (s suffix : JsString) (c d : CodeUnit) :
  endsWith s (suffix ++ [c]) -> last s d = c.
Proof.
  intros [p ->]. rewrite app_assoc. apply last_last.
Qed.

(** ** Truncation flag *)

(** C1, as stated, fails: in a face of 9.37890625 pixels a code unit the
    64-unit title measures 600.25 pixels.  The analyzer reports it
    truncated, while the rounded [pixelWidth] of the result is 600 and
    does not exceed the budget of 600. *)
Lemma isTruncated_rounded_width_counterexample :
  let r := evalState (analyzeText (fixedPitch (2401 # 256)) sample_title title) [] in
  sample_title <> [] /\
  Result.pixelWidth r = Math_round (measuredWidth (fixedPitch (2401 # 256)) sample_title title) /\
  Result.pixelWidth r = 600%Z /\
  Result.isTruncated r = true /\
  ~ (maxPixels (META_SETTINGS title) < inject_Z (Result.pixelWidth r)) /\
  ~ (Result.isTruncated r = true <->
     maxPixels (META_SETTINGS title) < inject_Z (Result.pixelWidth r)).
Proof.
  cbv zeta.
  assert (Hno : ~ (maxPixels (META_SETTINGS title)
                   < inject_Z (Result.pixelWidth
                       (evalState (analyzeText (fixedPitch (2401 # 256)) sample_title title) [])))).
  { vm_compute. intros H. discriminate H. }
  repeat split; try (vm_compute; reflexivity); try exact Hno.
  - discriminate.
  - intros [Hto _]. apply Hno, Hto. vm_compute. reflexivity.
Qed.

(** C1, amended: [isTruncated] is true exactly when the measured width,
    before rounding, strictly exceeds [maxPixels]; the [pixelWidth] of the
    result is that width rounded, so that a [pixelWidth] above [maxPixels]
    comes with [isTruncated] true, while [isTruncated] can be true with
    [pixelWidth] equal to [maxPixels]. *)
Theorem isTruncated_iff_measured_exceeds
    (glyphWidth : Font -> JsString -> Q) (text : JsString) (type : MetaType)
    (st : Store) :
  let r := evalState (analyzeText glyphWidth text type) st in
  (Result.isTruncated r = true <->
     maxPixels (META_SETTINGS type) < measuredWidth glyphWidth text type) /\
  Result.pixelWidth r = Math_round (measuredWidth glyphWidth text type) /\
  (maxPixels (META_SETTINGS type) < inject_Z (Result.pixelWidth r) ->
   Result.isTruncated r = true).
Proof.
  cbv zeta. rewrite analyzeText_eval. unfold analysis.
  cbn [Result.isTruncated Result.pixelWidth].
  split; [apply Qgtb_true|]. split; [reflexivity|].
  intros Hround. apply Qgtb_true.
  destruct type; cbn [META_SETTINGS maxPixels] in *.
  - now apply (Math_round_gt _ 600).
  - now apply (Math_round_gt _ 920).
Qed.

(** ** Truncated preview *)

(** C2, as stated, fails on the marker: the analyzer appends the three
    full stops "..." (code unit 46 three times), not the character U+2026
    of the claim.  The 72-unit title at 10 pixels a unit is truncated and
    its preview does not end with U+2026. *)
Lemma truncatedText_marker_counterexample :
  let r := evalState (analyzeText (fixedPitch 10) long_title title) [] in
  Result.isTruncated r = true /\
  Result.truncatedText r = slice long_title 0 59 ++ js "..." /\
  ~ endsWith (Result.truncatedText r) HORIZONTAL_ELLIPSIS /\
  (forall i, Result.truncatedText r <> slice long_title 0 i ++ HORIZONTAL_ELLIPSIS).
Proof.
  cbv zeta.
  assert (Hno : ~ endsWith
            (Result.truncatedText
               (evalState (analyzeText (fixedPitch 10) long_title title) []))
            HORIZONTAL_ELLIPSIS).
  { intros H. apply (endsWith_last _ [] 8230%N 0%N) in H. vm_compute in H. discriminate H. }
  repeat split; try (vm_compute; reflexivity); try exact Hno.
  intros i H. apply Hno. exists (slice long_title 0 i). exact H.
Qed.

Lemma scan_budget_nonneg (type : MetaType) : 0 <= scan_budget (META_SETTINGS type).
Proof. destruct type; vm_compute; discriminate. Qed.

Lemma scan_budget_lt_max (type : MetaType) :
  scan_budget (META_SETTINGS type) < maxPixels (META_SETTINGS type).
Proof. destruct type; vm_compute; reflexivity. Qed.

(** C2, amended: when [isTruncated] is true, [truncatedText] is the prefix
    of length [i] followed by the three full stops "...", where the scan
    stops at the first prefix whose width strictly exceeds
    [maxPixels - 5] and [i] is the last prefix length that did not exceed
    it ([i = 0] when the first code unit alone exceeds it); the retained
    prefix measures at most [maxPixels - 5].  The empty string measures 0,
    as the metrics contract says. *)
Theorem truncatedText_prefix_and_full_stops
    (glyphWidth : Font -> JsString -> Q) (text : JsString) (type : MetaType)
    (st : Store) :
  (forall font, glyphWidth font [] == 0) ->
  Result.isTruncated (evalState (analyzeText glyphWidth text type) st) = true ->
  truncation_outcome glyphWidth text type
    (evalState (analyzeText glyphWidth text type) st).
Proof.
  intros Hempty. rewrite analyzeText_eval. unfold analysis, truncation_outcome.
  cbn [Result.isTruncated Result.truncatedText]. intros Htrunc. rewrite Htrunc.
  apply Qgtb_true in Htrunc. unfold measuredWidth in Htrunc.
  set (width := glyphWidth (settings_font (META_SETTINGS type))) in *.
  fold (scan_budget (META_SETTINGS type)).
  set (budget := scan_budget (META_SETTINGS type)).
  pose proof (scan_from_while width text budget (length text) 0 ltac:(lia)) as Hloop.
  fold (truncation_index glyphWidth text type).
  change (scan_from width text budget (length text) 0)
    with (truncation_index glyphWidth text type) in Hloop.
  set (i := truncation_index glyphWidth text type) in *.
  destruct (while_scan_post width text budget 0 i Hloop) as (_ & Hmax & Hin & Hout).
  rewrite Nat.max_0_l in Hmax.
  assert (Hwide : budget < width text).
  { apply Qlt_trans with (maxPixels (META_SETTINGS type)); [|exact Htrunc].
    apply scan_budget_lt_max. }
  assert (Hfit : forall k, (k <= i)%nat -> width (slice text 0 k) <= budget).
  { intros [|k] Hk.
    - rewrite slice_empty. unfold width. rewrite Hempty. apply scan_budget_nonneg.
    - apply Hin. lia. }
  assert (Hlt : (i < length text)%nat).
  { destruct (Nat.eq_dec i (length text)) as [Heq|Hne]; [|lia]. exfalso.
    apply (Qlt_not_le _ _ Hwide).
    specialize (Hfit (length text) ltac:(lia)).
    now rewrite slice_prefix, firstn_all in Hfit. }
  exists i. repeat split; try assumption.
  - now apply Hout.
  - now exists (slice text 0 i).
Qed.

Lemma truncatedText_prefix_and_full_stops_witness :
  truncation_outcome (fixedPitch 10) long_title title
    (evalState (analyzeText (fixedPitch 10) long_title title) []).
Proof.
  apply (truncatedText_prefix_and_full_stops (fixedPitch 10) long_title title []).
  - intros font. reflexivity.
  - vm_compute. reflexivity.
Defined.

(** C3: when [isTruncated] is false, [truncatedText] is the input text,
    code unit for code unit. *)
Theorem truncatedText_identity_when_not_truncated
    (glyphWidth : Font -> JsString -> Q) (text : JsString) (type : MetaType)
    (st : Store) :
  Result.isTruncated (evalState (analyzeText glyphWidth text type) st) = false ->
  Result.truncatedText (evalState (analyzeText glyphWidth text type) st) = text.
Proof.
  rewrite analyzeText_eval. unfold analysis.
  cbn [Result.isTruncated Result.truncatedText]. now intros ->.
Qed.

Lemma truncatedText_identity_when_not_truncated_witness :
  Result.truncatedText
    (evalState (analyzeText (fixedPitch 10) (js "Your Meta Title") title) [])
  = js "Your Meta Title".
Proof.
  apply (truncatedText_identity_when_not_truncated
           (fixedPitch 10) (js "Your Meta Title") title []).
  vm_compute. reflexivity.
Defined.

(** ** Description-only fields *)

(** C4, as stated, fails: in a face of 6.71484375 pixels a code unit the
    64-unit description measures 429.75 pixels.  The result has
    [pixelWidth = 430] and [minPixels = 430], so [pixelWidth < minPixels]
    is false, and yet [isTooShort] is true. *)
Lemma isTooShort_rounded_width_counterexample :
  let r := evalState
             (analyzeText (fixedPitch (1719 # 256)) sample_description description) [] in
  sample_description <> [] /\
  Result.pixelWidth r = 430%Z /\
  Result.minPixels r = Some 430 /\
  Result.isTooShort r = Some true /\
  Qltb (inject_Z (Result.pixelWidth r)) 430 = false /\
  Result.isTooShort r <> Some (Qltb (inject_Z (Result.pixelWidth r)) 430).
Proof.
  cbv zeta. repeat split;
    first [ vm_compute; reflexivity | vm_compute; discriminate | discriminate ].
Qed.

(** C4, amended: for a description the result carries [minPixels] and
    [isTooShort], with [isTooShort] true exactly when the measured width,
    before rounding, is below [minPixels] (as it is whenever the rounded
    [pixelWidth] is below [minPixels]), and
    [isOptimal = !isTruncated && !isTooShort]; for a title both fields are
    left out and [isOptimal = !isTruncated]. *)
Theorem description_fields
    (glyphWidth : Font -> JsString -> Q) (text : JsString) (type : MetaType)
    (st : Store) :
  let r := evalState (analyzeText glyphWidth text type) st in
  match type with
  | description =>
      exists (m : Q) (tooShort : bool),
        minPixels (META_SETTINGS description) = Some m /\
        Result.minPixels r = Some m /\
        Result.isTooShort r = Some tooShort /\
        (tooShort = true <-> measuredWidth glyphWidth text description < m) /\
        (inject_Z (Result.pixelWidth r) < m -> tooShort = true) /\
        Result.isOptimal r = negb (Result.isTruncated r) && negb tooShort
  | title =>
      Result.minPixels r = None /\
      Result.isTooShort r = None /\
      Result.isOptimal r = negb (Result.isTruncated r)
  end.
Proof.
  cbv zeta. rewrite analyzeText_eval. destruct type; unfold analysis.
  - cbn [Result.minPixels Result.isTooShort Result.isOptimal Result.isTruncated
         is_description negb orb andb].
    repeat split. now rewrite andb_true_r.
  - exists 430, (Qltb (measuredWidth glyphWidth text description) 430).
    cbn [Result.minPixels Result.isTooShort Result.isOptimal Result.isTruncated
         Result.pixelWidth is_description negb orb andb].
    repeat split; try reflexivity; try apply Qltb_true.
    intros Hround. apply Qltb_true. now apply (Math_round_lt _ 430).
Qed.

(** ** Recommended character count *)

(** C5, as stated, fails: at 12.5 pixels a code unit the title "Title"
    measures 62.5 pixels, reported as [pixelWidth = 63].  The analyzer
    divides the unrounded width: floor(600 / (62.5 / 5)) = 48, while the
    average of the rounded width gives floor(600 / (63 / 5)) = 47. *)
Lemma recommendedMaxChars_rounded_width_counterexample :
  let r := evalState (analyzeText (fixedPitch (25 # 2)) (js "Title") title) [] in
  js "Title" <> [] /\
  0 < measuredWidth (fixedPitch (25 # 2)) (js "Title") title /\
  Result.pixelWidth r = 63%Z /\
  Result.characterCount r = 5%nat /\
  Result.recommendedMaxChars r = Finite (inject_Z 48) /\
  recommended_from_rounded r = Finite (inject_Z 47) /\
  Result.recommendedMaxChars r <> recommended_from_rounded r.
Proof.
  cbv zeta. repeat split;
    first [ vm_compute; reflexivity | vm_compute; discriminate | discriminate ].
Qed.

Lemma length_number_pos (text : JsString) :
  text <> [] -> 0 < inject_Z (Z.of_nat (length text)).
Proof.
  intros Hne. destruct text as [|c text]; [congruence|].
  unfold Qlt. simpl. lia.
Qed.

Lemma js_div_nonzero (x y : Q) :
  ~ y == 0 -> js_div (Finite x) (Finite y) = round_to_double (x / y).
Proof.
  intros Hy. unfold js_div. now rewrite (proj2 (Qis_zero_false y) Hy).
Qed.

(** The quotient of two positive doubles is [Infinity] or a finite number
    that is not negative. *)
Lemma js_div_positive (x y : Q) :
  0 < x -> 0 < y ->
  js_div (Finite x) (Finite y) = round_positive (x / y) /\
  ((exists a, js_div (Finite x) (Finite y) = Finite a /\ 0 <= a)
   \/ js_div (Finite x) (Finite y) = PosInfinity).
Proof.
  intros Hx Hy.
  assert (Hq : 0 < x / y).
  { apply Qlt_shift_div_l; [exact Hy|]. now rewrite Qmult_0_l. }
  assert (E : js_div (Finite x) (Finite y) = round_positive (x / y)).
  { rewrite js_div_nonzero by (intros H; rewrite H in Hy; discriminate Hy).
    now apply round_to_double_positive. }
  split; [exact E|]. rewrite E. now apply round_positive_sign.
Qed.

(** The floor of [max / avg] for a positive [max] and an average that is
    [Infinity] or not negative: an integer that is not negative, or
    [Infinity]. *)
Lemma floor_of_quotient (max : Q) (avg : JsNumber) :
  0 < max ->
  (exists a, avg = Finite a /\ 0 <= a) \/ avg = PosInfinity ->
  (exists n : Z, Math_floor (js_div (Finite max) avg) = Finite (inject_Z n) /\ (0 <= n)%Z)
  \/ Math_floor (js_div (Finite max) avg) = PosInfinity.
Proof.
  intros Hmax [(a & -> & Ha) | ->].
  - destruct (Qis_zero a) eqn:Hzero.
    + right. unfold js_div. rewrite Hzero, (proj2 (Qgtb_true max 0) Hmax). reflexivity.
    + assert (Hpos : 0 < a).
      { apply Qis_zero_false in Hzero. apply Qle_lteq in Ha. destruct Ha as [Ha|Ha];
          [exact Ha | exfalso; apply Hzero; now symmetry]. }
      destruct (js_div_positive max a Hmax Hpos) as [_ [(r & -> & Hr) | ->]];
        [left | now right].
      exists (Qfloor r). split; [reflexivity|].
      change 0%Z with (Qfloor 0). now apply Qfloor_resp_le.
  - left. exists 0%Z. split; [reflexivity | lia].
Qed.

Lemma max_pixels_pos (type : MetaType) : 0 < maxPixels (META_SETTINGS type).
Proof. destruct type; reflexivity. Qed.

(** C5, amended: for a non-empty text of positive measured width,
    [recommendedMaxChars = floor(maxPixels / avgCharWidth)] where
    [avgCharWidth] is the measured width, before rounding, divided by the
    number of code units of the text, both quotients being divisions of
    doubles, rounded to the nearest double.  It is never negative: an
    integer that is not negative, or [Infinity] when the average width is
    so small that a division underflows or overflows; it is an integer
    that is not negative whenever the text measures at least one pixel
    and has at most [2 ^ 53] code units. *)
Theorem recommendedMaxChars_floor_of_measured
    (glyphWidth : Font -> JsString -> Q) (text : JsString) (type : MetaType)
    (st : Store) :
  text <> [] ->
  0 < measuredWidth glyphWidth text type ->
  let r := evalState (analyzeText glyphWidth text type) st in
  let avgCharWidth :=
    js_div (Finite (measuredWidth glyphWidth text type)) (length_number text) in
  Result.recommendedMaxChars r
  = Math_floor (js_div (Finite (maxPixels (META_SETTINGS type))) avgCharWidth) /\
  ((exists n : Z, Result.recommendedMaxChars r = Finite (inject_Z n) /\ (0 <= n)%Z)
   \/ Result.recommendedMaxChars r = PosInfinity) /\
  (1 <= measuredWidth glyphWidth text type ->
   (Z.of_nat (length text) <= 2 ^ 53)%Z ->
   exists n : Z, Result.recommendedMaxChars r = Finite (inject_Z n) /\ (0 <= n)%Z).
Proof.
  intros Hne Hpos. cbv zeta. rewrite analyzeText_eval. unfold analysis.
  cbn [Result.recommendedMaxChars]. unfold length_number.
  pose proof (length_number_pos text Hne) as Hlen.
  pose proof (max_pixels_pos type) as Hmax.
  set (w := measuredWidth glyphWidth text type) in *.
  set (len := inject_Z (Z.of_nat (length text))) in *.
  set (max := maxPixels (META_SETTINGS type)) in *.
  destruct (js_div_positive w len Hpos Hlen) as [Eavg Havg].
  split; [reflexivity|]. split; [now apply floor_of_quotient|].
  intros Hpixel Hlength.
  assert (Hq : 0 < w / len).
  { apply Qlt_shift_div_l; [exact Hlen|]. now rewrite Qmult_0_l. }
  assert (Hsmall : 2 ^ (-53) <= w / len).
  { apply Qle_shift_div_l; [exact Hlen|].
    assert (Hl : len <= 2 ^ 53).
    { unfold len. change (2 ^ 53) with (inject_Z (2 ^ 53)). now rewrite <- Zle_Qle. }
    apply Qle_trans with (2 ^ (-53) * 2 ^ 53);
      [apply Qmult_le_l; [reflexivity | exact Hl]|].
    apply Qle_trans with 1; [discriminate | exact Hpixel]. }
  destruct Havg as [(a & Ha & _) | Hinf].
  2:{ rewrite Hinf. exists 0%Z. split; [reflexivity | lia]. }
  rewrite Ha. rewrite Ha in Eavg. symmetry in Eavg.
  destruct (Qlog2_spec (w / len) Hq) as [_ Hhi].
  assert (He : (-53 <= Qlog2 (w / len))%Z).
  { assert (H : (-53 < Qlog2 (w / len) + 1)%Z)
      by (apply pow2_lt_inv; now apply Qle_lt_trans with (w / len)).
    lia. }
  pose proof (round_positive_lower (w / len) a Hq ltac:(lia) Eavg) as Hlow.
  assert (Ha53 : 2 ^ (-53) <= a).
  { apply Qle_trans with (2 ^ Qlog2 (w / len)); [now apply pow2_le | exact Hlow]. }
  assert (Hapos : 0 < a) by (apply Qlt_le_trans with (2 ^ (-53)); [reflexivity | exact Ha53]).
  destruct (js_div_positive max a Hmax Hapos) as [E2 _]. rewrite E2.
  assert (Hmax920 : max <= 920) by (unfold max; destruct type; discriminate).
  destruct (round_positive_finite (max / a)) as (r2 & -> & Hr2).
  - apply Qlt_shift_div_l; [exact Hapos|]. now rewrite Qmult_0_l.
  - apply Qle_shift_div_r; [exact Hapos|].
    apply Qle_trans with (2 ^ 1000 * 2 ^ (-53));
      [|apply Qmult_le_l; [reflexivity | exact Ha53]].
    apply Qle_trans with 920; [exact Hmax920 | discriminate].
  - exists (Qfloor r2). split; [reflexivity|].
    change 0%Z with (Qfloor 0). now apply Qfloor_resp_le.
Qed.

Lemma recommendedMaxChars_floor_of_measured_witness :
  let r := evalState (analyzeText (fixedPitch (25 # 2)) (js "Title") title) [] in
  let avgCharWidth :=
    js_div (Finite (measuredWidth (fixedPitch (25 # 2)) (js "Title") title))
           (length_number (js "Title")) in
  Result.recommendedMaxChars r
  = Math_floor (js_div (Finite (maxPixels (META_SETTINGS title))) avgCharWidth) /\
  ((exists n : Z, Result.recommendedMaxChars r = Finite (inject_Z n) /\ (0 <= n)%Z)
   \/ Result.recommendedMaxChars r = PosInfinity) /\
  (1 <= measuredWidth (fixedPitch (25 # 2)) (js "Title") title ->
   (Z.of_nat (length (js "Title")) <= 2 ^ 53)%Z ->
   exists n : Z, Result.recommendedMaxChars r = Finite (inject_Z n) /\ (0 <= n)%Z).
Proof.
  apply (recommendedMaxChars_floor_of_measured (fixedPitch (25 # 2)) (js "Title") title []).
  - discriminate.
  - vm_compute. reflexivity.
Defined.

(** The rounding of the two divisions shows in the result: a title of 51
    code units that measures 600 pixels gets 50, where the exact quotient
    is 51; and a text whose average width underflows to 0 gets
    [Infinity]. *)
Example recommendedMaxChars_rounds_like_doubles :
  Result.recommendedMaxChars
    (evalState (analyzeText (fixedPitch (600 # 51)) (repeat 97%N 51) title) [])
  = Finite (inject_Z 50) /\
  Result.recommendedMaxChars
    (evalState (analyzeText (fixedPitch (200 # 17)) (repeat 97%N 17) title) [])
  = Finite (inject_Z 50) /\
  Result.recommendedMaxChars
    (evalState (analyzeText (fixedPitch (2 ^ (-1075))) (repeat 97%N 2) title) [])
  = PosInfinity.
Proof. repeat split; vm_compute; reflexivity. Qed.

(** ** Shape of the result *)

(** C6: in every result, [characterCount] is the length of the input
    text, [pixelWidth] is the measured width rounded to an integer, not
    negative when the measured width is not negative, and [maxPixels] is
    the value of the settings, unchanged. *)
Theorem result_shape
    (glyphWidth : Font -> JsString -> Q) (text : JsString) (type : MetaType)
    (st : Store) :
  0 <= measuredWidth glyphWidth text type ->
  let r := evalState (analyzeText glyphWidth text type) st in
  Result.characterCount r = length text /\
  Result.pixelWidth r = Math_round (measuredWidth glyphWidth text type) /\
  (0 <= Result.pixelWidth r)%Z /\
  Result.maxPixels r = maxPixels (META_SETTINGS type).
Proof.
  intros Hpos. cbv zeta. rewrite analyzeText_eval. unfold analysis.
  cbn [Result.characterCount Result.pixelWidth Result.maxPixels].
  repeat split. now apply Math_round_nonneg.
Qed.

Lemma result_shape_witness :
  let r := evalState (analyzeText (fixedPitch 10) (js "Your Meta Title") title) [] in
  Result.characterCount r = length (js "Your Meta Title") /\
  Result.pixelWidth r = Math_round (measuredWidth (fixedPitch 10) (js "Your Meta Title") title) /\
  (0 <= Result.pixelWidth r)%Z /\
  Result.maxPixels r = maxPixels (META_SETTINGS title).
Proof.
  apply (result_shape (fixedPitch 10) (js "Your Meta Title") title []).
  vm_compute. discriminate.
Defined.

(** ** Determinism *)

(** C7: with the glyph metrics fixed, two calls of the analyzer on the
    same text and field kind return the same record, whatever contexts
    were allocated before each call; in particular a second call that
    follows the first returns what the first returned. *)
Theorem analyzeText_deterministic
    (glyphWidth : Font -> JsString -> Q) (text : JsString) (type : MetaType) :
  (forall st st' : Store,
     evalState (analyzeText glyphWidth text type) st
     = evalState (analyzeText glyphWidth text type) st') /\
  (forall st : Store,
     evalState (r1 <- analyzeText glyphWidth text type ;;
                r2 <- analyzeText glyphWidth text type ;;
                ret (r1, r2)) st
     = (evalState (analyzeText glyphWidth text type) st,
        evalState (analyzeText glyphWidth text type) st)).
Proof.
  split.
  - intros st st'. now rewrite !analyzeText_eval.
  - intros st. unfold evalState. cbn [bind Monad_state runState ret].
    rewrite analyzeText_run. cbn [fst snd]. rewrite analyzeText_run. reflexivity.
Qed.

(** ** Empty text *)

(** C9: on the empty text the analyzer returns a complete record and
    raises nothing: the average width is [0 / 0], which is [NaN], so
    [recommendedMaxChars] is [NaN]; the other fields are those of a text
    of width 0.  The empty string measures 0, as the metrics contract
    says. *)
Theorem analyzeText_empty_text
    (glyphWidth : Font -> JsString -> Q) (type : MetaType) (st : Store) :
  (forall font, glyphWidth font [] == 0) ->
  js_div (Finite (measuredWidth glyphWidth [] type)) (length_number []) = NaN /\
  runState (analyzeText glyphWidth [] type) st
  = (empty_text_result type, st ++ [settings_font (META_SETTINGS type)]).
Proof.
  intros Hempty.
  assert (Hw : measuredWidth glyphWidth [] type == 0) by apply Hempty.
  assert (Hgt : forall b, 0 <= b -> Qgtb (measuredWidth glyphWidth [] type) b = false).
  { intros b Hb. apply Qgtb_false. now rewrite Hw. }
  assert (Hlt : forall b, 0 < b -> Qltb (measuredWidth glyphWidth [] type) b = true).
  { intros b Hb. apply Qltb_true. now rewrite Hw. }
  assert (Hlt0 : Qltb (measuredWidth glyphWidth [] type) 0 = false).
  { apply Qltb_false. rewrite Hw. apply Qle_refl. }
  assert (Havg : js_div (Finite (measuredWidth glyphWidth [] type)) (length_number []) = NaN).
  { unfold js_div, length_number. cbn [length Z.of_nat].
    change (Qis_zero (inject_Z 0)) with true. cbv iota.
    rewrite (Hgt 0 (Qle_refl 0)), Hlt0. reflexivity. }
  split; [exact Havg|].
  rewrite analyzeText_run. unfold analysis, allocated, empty_text_result. rewrite Havg.
  rewrite (Hgt _ (Qlt_le_weak _ _ (max_pixels_pos type))).
  assert (Hround : Math_round (measuredWidth glyphWidth [] type) = 0%Z).
  { unfold Math_round. rewrite Hw. reflexivity. }
  rewrite Hround.
  destruct type; cbn [is_description andb orb negb].
  - reflexivity.
  - unfold lt_minPixels. cbn [minPixels META_SETTINGS].
    rewrite (Hlt 430 eq_refl). reflexivity.
Qed.

Lemma analyzeText_empty_text_witness :
  js_div (Finite (measuredWidth (fixedPitch 10) [] description)) (length_number []) = NaN /\
  runState (analyzeText (fixedPitch 10) [] description) []
  = (empty_text_result description, [] ++ [settings_font (META_SETTINGS description)]).
Proof.
  apply (analyzeText_empty_text (fixedPitch 10) description []).
  intros font. reflexivity.
Defined.

(** ** The batch endpoint *)

Section BatchRuns.

Variable glyphWidth : Font -> JsString -> Q.

Lemma analyze_field_run (item : JsValue) (key : string) (type : MetaType) (st : Store) :
  exists st', runState (analyze_field glyphWidth item key type) st
              = (evalState (analyze_field glyphWidth item key type) [], st').
Proof.
  unfold analyze_field, evalState. destruct (truthy (prop item key)).
  - destruct (prop item key); try (eexists; reflexivity).
    cbn [bind Monad_state runState]. rewrite !analyzeText_run. cbn [fst snd].
    eexists; reflexivity.
  - eexists; reflexivity.
Qed.

Lemma process_item_run (item : JsValue) (st : Store) :
  exists st', runState (process_item glyphWidth item) st = (entry glyphWidth item, st').
Proof.
  unfold entry, evalState, process_item.
  destruct (negb (truthy item) || negb (typeof_object item)).
  - eexists; reflexivity.
  - cbn [bind Monad_state runState].
    destruct (analyze_field_run item "title" title st) as [st1 H1].
    destruct (analyze_field_run item "title" title []) as [st1' H1'].
    rewrite H1, H1'. cbn [fst snd].
    destruct (analyze_field_run item "description" description st1) as [st2 H2].
    destruct (analyze_field_run item "description" description st1') as [st2' H2'].
    rewrite H2, H2'. cbn [fst snd].
    destruct (evalState (analyze_field glyphWidth item "title" title) []);
      destruct (evalState (analyze_field glyphWidth item "description" description) []);
      eexists; reflexivity.
Qed.

(** Inside the model, an item has an entry. *)
Lemma entry_defined (item : JsValue) :
  texts_are_strings item = true -> exists r, entry glyphWidth item = Some r.
Proof.
  unfold texts_are_strings, text_or_absent, entry, evalState, process_item, analyze_field.
  intros H. apply andb_true_iff in H. destruct H as [Ht Hd].
  destruct (negb (truthy item) || negb (typeof_object item)); [eexists; reflexivity|].
  cbn [bind Monad_state runState].
  destruct (truthy (prop item "title")); destruct (prop item "title");
    try discriminate Ht;
    destruct (truthy (prop item "description")); destruct (prop item "description");
    try discriminate Hd; cbn [bind Monad_state runState fst snd ret];
    repeat (rewrite analyzeText_run; cbn [bind Monad_state runState fst snd ret]);
    eexists; reflexivity.
Qed.

(** A malformed item gets an error marker, whatever its entry is. *)
Lemma entry_malformed (item : JsValue) (r : Item.t) :
  malformed item -> entry glyphWidth item = Some r -> error_marker r.
Proof.
  unfold malformed, entry, evalState, process_item, error_marker.
  intros Hbad.
  destruct (negb (truthy item) || negb (typeof_object item)) eqn:Hguard.
  - cbn. intros [= <-]. cbn. repeat split. discriminate.
  - destruct Hbad as [Hf | [Hf | [Ht Hd]]].
    + rewrite Hf in Hguard. discriminate Hguard.
    + rewrite Hf, orb_true_r in Hguard. discriminate Hguard.
    + unfold analyze_field. rewrite Ht, Hd. cbn. intros [= <-]. cbn.
      repeat split. discriminate.
Qed.

Lemma map_items_run (items : list JsValue) (st : Store) :
  Forall (fun item => texts_are_strings item = true) items ->
  exists results st',
    runState (map_items glyphWidth items) st = (Some results, st') /\
    Forall2 (fun item r => entry glyphWidth item = Some r) items results.
Proof.
  intros Hok. revert st. induction Hok as [|item items Hitem Hrest IH]; intros st.
  - exists [], st. split; [reflexivity | constructor].
  - cbn [map_items bind Monad_state runState].
    destruct (process_item_run item st) as [st1 H1]. rewrite H1. cbn [fst snd].
    destruct (IH st1) as (results & st2 & H2 & Hall). rewrite H2. cbn [fst snd].
    destruct (entry_defined item Hitem) as [r Hr]. rewrite Hr.
    exists (r :: results), st2. split; [reflexivity | now constructor].
Qed.

End BatchRuns.

(** The request shapes of the documentation give their array of items. *)
Lemma extract_items_standard (items : list JsValue) :
  extract_items (JObject [("items"%string, JArray items)]) = inr (JArray items) /\
  extract_items (JArray items) = inr (JArray items).
Proof. split; reflexivity. Qed.

(** C8, as stated, fails on the empty batch: the handler rejects a request
    whose array of items is empty with status 400, a failure of the whole
    request, and sends no sequence of results. *)
Lemma empty_batch_counterexample :
  extract_items empty_batch = inr (JArray []) /\
  exists response,
    evalState (analyze_batch (fixedPitch 10) sample_now empty_batch) [] = Some response /\
    status response = 400%nat /\
    body response = ErrorBody "No items to analyze found in request" empty_batch /\
    (forall results count timestamp,
       response <> res_json (BatchBody results count timestamp)).
Proof.
  split; [reflexivity|]. eexists. split; [vm_compute; reflexivity|].
  repeat split. intros results count timestamp H. discriminate H.
Qed.

(** C8, amended: for every batch of items that is not empty (the texts of
    the items being strings where present), the response has status 200
    and no top-level error, with exactly one entry for each item, in the
    order of the items, and [count] the number of items; an item that is
    not an object, or that has neither title nor description, gets an
    error marker in its own entry, and the entry of an item does not
    depend on the other items. *)
Theorem batch_one_entry_per_item
    (glyphWidth : Font -> JsString -> Q) (now : string) (reqBody : JsValue)
    (items : list JsValue) (st : Store) :
  extract_items reqBody = inr (JArray items) ->
  items <> [] ->
  Forall (fun item => texts_are_strings item = true) items ->
  batch_outcome glyphWidth now items
    (evalState (analyze_batch glyphWidth now reqBody) st).
Proof.
  intros Hextract Hne Hok.
  destruct (map_items_run glyphWidth items st Hok) as (results & st' & Hrun & Hall).
  assert (Hlen : length results = length items).
  { symmetry. exact (Forall2_length Hall). }
  assert (Hbody : evalState (analyze_batch glyphWidth now reqBody) st
                  = Some (mkResponse 200 (BatchBody results (length items) now))).
  { unfold analyze_batch, evalState.
    destruct reqBody; try discriminate Hextract; rewrite Hextract;
      cbn [truthy isArray negb orb elements_of];
      (destruct items as [|item rest]; [congruence|]);
      cbn [length Nat.eqb bind Monad_state runState];
      rewrite Hrun; cbn [fst snd ret runState Monad_state]; rewrite Hlen; reflexivity. }
  exists results. split; [exact Hbody|]. split; [exact Hlen|].
  apply (Forall2_impl (R1 := fun item r => entry glyphWidth item = Some r));
    [|exact Hall].
  intros item r Hentry. split; [exact Hentry|].
  intros Hbad. exact (entry_malformed glyphWidth item r Hbad Hentry).
Qed.

Lemma batch_one_entry_per_item_witness :
  batch_outcome (fixedPitch 10) sample_now sample_items
    (evalState (analyze_batch (fixedPitch 10) sample_now sample_batch) []).
Proof.
  apply (batch_one_entry_per_item (fixedPitch 10) sample_now sample_batch sample_items []).
  - reflexivity.
  - discriminate.
  - repeat constructor.
Defined.

(** ** The id of an entry *)



(** * Further properties of the analyzer *)

(** X2: a non-empty text of measured width 0 (zero-width characters) is
    not truncated and its [recommendedMaxChars] is [Infinity]: the average
    width is 0 and the analyzer divides [maxPixels] by it. *)
Theorem zero_width_text_recommends_infinity
    (glyphWidth : Font -> JsString -> Q) (text : JsString) (type : MetaType)
    (st : Store) :
  text <> [] ->
  measuredWidth glyphWidth text type == 0 ->
  let r := evalState (analyzeText glyphWidth text type) st in
  Result.recommendedMaxChars r = PosInfinity /\
  Result.isTruncated r = false /\
  Result.pixelWidth r = 0%Z /\
  Result.truncatedText r = text.
Proof.
  intros Hne Hzero. cbv zeta. rewrite analyzeText_eval. unfold analysis.
  cbn [Result.recommendedMaxChars Result.isTruncated Result.pixelWidth Result.truncatedText].
  pose proof (length_number_pos text Hne) as Hlen.
  assert (Hgt : Qgtb (measuredWidth glyphWidth text type) (maxPixels (META_SETTINGS type)) = false).
  { apply Qgtb_false. rewrite Hzero. apply Qlt_le_weak, max_pixels_pos. }
  rewrite Hgt. unfold length_number. rewrite js_div_nonzero.
  2:{ intros H. rewrite H in Hlen. discriminate Hlen. }
  rewrite round_to_double_zero.
  2:{ rewrite Hzero. unfold Qdiv. apply Qmult_0_l. }
  unfold js_div. change (Qis_zero 0) with true. cbv iota.
  rewrite (proj2 (Qgtb_true _ _) (max_pixels_pos type)).
  repeat split. unfold Math_round. rewrite Hzero. reflexivity.
Qed.

Lemma zero_width_text_recommends_infinity_witness :
  let r := evalState (analyzeText (fixedPitch 0) [8203%N; 8203%N] title) [] in
  Result.recommendedMaxChars r = PosInfinity /\
  Result.isTruncated r = false /\
  Result.pixelWidth r = 0%Z /\
  Result.truncatedText r = [8203%N; 8203%N].
Proof.
  apply (zero_width_text_recommends_infinity (fixedPitch 0) [8203%N; 8203%N] title []).
  - discriminate.
  - reflexivity.
Defined.

(** X3: [isOptimal] is true exactly when the measured width is at most
    [maxPixels] and, for a description, at least [minPixels]; a result is
    never both truncated and too short. *)
Theorem isOptimal_iff_width_in_range
    (glyphWidth : Font -> JsString -> Q) (text : JsString) (type : MetaType)
    (st : Store) :
  let r := evalState (analyzeText glyphWidth text type) st in
  let w := measuredWidth glyphWidth text type in
  (Result.isOptimal r = true <->
     w <= maxPixels (META_SETTINGS type) /\
     match type with
     | description => 430 <= w
     | title => True
     end) /\
  ~ (Result.isTruncated r = true /\ Result.isTooShort r = Some true).
Proof.
  cbv zeta. rewrite analyzeText_eval. unfold analysis.
  cbn [Result.isOptimal Result.isTruncated Result.isTooShort].
  set (w := measuredWidth glyphWidth text type).
  destruct type; cbn [is_description negb orb andb META_SETTINGS maxPixels minPixels lt_minPixels].
  - split.
    + rewrite andb_true_r, negb_true_iff, Qgtb_false. tauto.
    + intros [_ H]. discriminate H.
  - split.
    + rewrite andb_true_iff, !negb_true_iff, Qgtb_false, Qltb_false. tauto.
    + intros [Ht Hs]. injection Hs as Hs.
      apply Qgtb_true in Ht. apply Qltb_true in Hs. lra.
Qed.

(** X4: the reported [pixelWidth] is within half a pixel of the measured
    width: [w - 1/2 < pixelWidth <= w + 1/2]. *)
Theorem pixelWidth_within_half_pixel
    (glyphWidth : Font -> JsString -> Q) (text : JsString) (type : MetaType)
    (st : Store) :
  let r := evalState (analyzeText glyphWidth text type) st in
  let w := measuredWidth glyphWidth text type in
  w - (1 # 2) < inject_Z (Result.pixelWidth r) /\
  inject_Z (Result.pixelWidth r) <= w + (1 # 2).
Proof.
  cbv zeta. rewrite analyzeText_eval. unfold analysis. cbn [Result.pixelWidth].
  unfold Math_round.
  pose proof (Qfloor_le (measuredWidth glyphWidth text type + (1 # 2))) as Hle.
  pose proof (Qlt_floor (measuredWidth glyphWidth text type + (1 # 2))) as Hlt.
  rewrite inject_Z_plus in Hlt. change (inject_Z 1) with 1 in Hlt.
  split; lra.
Qed.

(** The counter of the scan of a text, with what holds when the loop is
    left. *)
Lemma truncation_index_post
    (glyphWidth : Font -> JsString -> Q) (text : JsString) (type : MetaType) :
  let width := glyphWidth (settings_font (META_SETTINGS type)) in
  let budget := scan_budget (META_SETTINGS type) in
  let i := truncation_index glyphWidth text type in
  (i <= length text)%nat /\
  (forall k, (0 < k <= i)%nat -> width (slice text 0 k) <= budget) /\
  ((i < length text)%nat -> budget < width (slice text 0 (i + 1))).
Proof.
  cbv zeta. unfold truncation_index. cbv zeta.
  pose proof (scan_from_while (glyphWidth (settings_font (META_SETTINGS type))) text
                (scan_budget (META_SETTINGS type)) (length text) 0 ltac:(lia)) as Hloop.
  destruct (while_scan_post _ _ _ _ _ Hloop) as (_ & Hmax & Hin & Hout).
  rewrite Nat.max_0_l in Hmax. auto.
Qed.

(** X5: when the widths of the prefixes of the text do not decrease with
    their length, the preview of a truncated text keeps the longest prefix
    that fits the reduced budget: a non-empty prefix fits
    [maxPixels - 5] exactly when it is no longer than the one kept. *)
Theorem truncatedText_keeps_longest_fitting_prefix
    (glyphWidth : Font -> JsString -> Q) (text : JsString) (type : MetaType)
    (st : Store) :
  let width := glyphWidth (settings_font (META_SETTINGS type)) in
  let budget := maxPixels (META_SETTINGS type) - 5 in
  (forall k, width (slice text 0 k) <= width (slice text 0 (k + 1))) ->
  Result.isTruncated (evalState (analyzeText glyphWidth text type) st) = true ->
  exists i : nat,
    Result.truncatedText (evalState (analyzeText glyphWidth text type) st)
    = slice text 0 i ++ js "..." /\
    (forall k, (0 < k <= length text)%nat ->
       (width (slice text 0 k) <= budget <-> (k <= i)%nat)).
Proof.
  cbv zeta. intros Hmono. rewrite analyzeText_eval. unfold analysis.
  cbn [Result.isTruncated Result.truncatedText]. intros Htrunc. rewrite Htrunc.
  exists (truncation_index glyphWidth text type). split; [reflexivity|].
  destruct (truncation_index_post glyphWidth text type) as (Hmax & Hin & Hout).
  fold (scan_budget (META_SETTINGS type)).
  set (i := truncation_index glyphWidth text type) in *.
  set (width := glyphWidth (settings_font (META_SETTINGS type))) in *.
  set (budget := scan_budget (META_SETTINGS type)) in *.
  assert (Hup : forall d k, (k = i + 1 + d)%nat -> (k <= length text)%nat ->
                            budget < width (slice text 0 k)).
  { induction d as [|d IH]; intros k -> Hk.
    - rewrite Nat.add_0_r. apply Hout. lia.
    - apply Qlt_le_trans with (width (slice text 0 (i + 1 + d))).
      + apply IH; [reflexivity | lia].
      + replace (i + 1 + S d)%nat with (i + 1 + d + 1)%nat by lia. apply Hmono. }
  intros k Hk. split.
  - intros Hfit. destruct (Nat.le_gt_cases k i) as [Hle|Hgt]; [exact Hle|].
    exfalso. apply (Qlt_not_le _ _ (Hup (k - i - 1)%nat k ltac:(lia) ltac:(lia))).
    exact Hfit.
  - intros Hle. apply Hin. lia.
Qed.

Lemma truncatedText_keeps_longest_fitting_prefix_witness :
  exists i : nat,
    Result.truncatedText (evalState (analyzeText (fixedPitch 10) long_title title) [])
    = slice long_title 0 i ++ js "..." /\
    (forall k, (0 < k <= length long_title)%nat ->
       (fixedPitch 10 (settings_font (META_SETTINGS title)) (slice long_title 0 k)
        <= maxPixels (META_SETTINGS title) - 5 <-> (k <= i)%nat)).
Proof.
  apply (truncatedText_keeps_longest_fitting_prefix (fixedPitch 10) long_title title []).
  - intros k. unfold fixedPitch. rewrite !slice_prefix, !length_firstn.
    apply Qmult_le_l; [reflexivity|]. rewrite <- Zle_Qle. lia.
  - vm_compute. reflexivity.
Defined.

(** X6: a call of the analyzer only adds contexts to the store: one, or
    two when the text is truncated, all with the font of the field kind;
    every context allocated before the call keeps its font. *)
Theorem analyzeText_only_allocates
    (glyphWidth : Font -> JsString -> Q) (text : JsString) (type : MetaType)
    (st : Store) :
  let r := fst (runState (analyzeText glyphWidth text type) st) in
  let st' := snd (runState (analyzeText glyphWidth text type) st) in
  exists fresh : Store,
    st' = st ++ fresh /\
    length fresh = (if Result.isTruncated r then 2 else 1)%nat /\
    Forall (fun f => f = settings_font (META_SETTINGS type)) fresh /\
    (forall ctx, (ctx < length st)%nat -> store_font st' ctx = store_font st ctx).
Proof.
  cbv zeta. rewrite analyzeText_run. cbn [fst snd].
  exists (allocated glyphWidth text type). split; [reflexivity|].
  unfold allocated, analysis. cbn [Result.isTruncated].
  split; [|split].
  - destruct (Qgtb _ _); reflexivity.
  - destruct (Qgtb _ _); repeat constructor.
  - intros ctx Hctx. unfold store_font. now rewrite app_nth1.
Qed.

(** * Further properties of the batch endpoint *)

Lemma isArray_JArray (v : JsValue) : isArray v = true -> exists items, v = JArray items.
Proof. destruct v; try discriminate. intros _. now eexists. Qed.

(** The search returns the array of the first value that holds one. *)
Lemma find_items_in_first (before after : list JsValue) (v : JsValue) :
  forallb (fun u => negb (holds_items u)) before = true ->
  holds_items v = true ->
  find_items_in (before ++ v :: after) = Some (items_in v).
Proof.
  intros Hbefore Hv. induction before as [|u before IH]; cbn [app find_items_in].
  - unfold holds_items in Hv. unfold items_in.
    apply andb_true_iff in Hv. destruct Hv as [Hobj Hitems]. rewrite Hobj.
    destruct (isArray v); [reflexivity|]. cbn [orb] in Hitems. now rewrite Hitems.
  - cbn [forallb] in Hbefore. apply andb_true_iff in Hbefore.
    destruct Hbefore as [Hu Hrest]. apply negb_true_iff in Hu. unfold holds_items in Hu.
    destruct (truthy u && typeof_object u); [|now apply IH].
    cbn [andb] in Hu. apply orb_false_iff in Hu. destruct Hu as [Harr Hitems].
    rewrite Harr, Hitems. now apply IH.
Qed.

Lemma find_items_in_none (values : list JsValue) :
  forallb (fun u => negb (holds_items u)) values = true ->
  find_items_in values = None.
Proof.
  induction values as [|u values IH]; intros H; cbn [find_items_in]; [reflexivity|].
  cbn [forallb] in H. apply andb_true_iff in H. destruct H as [Hu Hrest].
  apply negb_true_iff in Hu. unfold holds_items in Hu.
  destruct (truthy u && typeof_object u); [|now apply IH].
  cbn [andb] in Hu. apply orb_false_iff in Hu. destruct Hu as [Harr Hitems].
  rewrite Harr, Hitems. now apply IH.
Qed.

Lemma find_items_in_array (values : list JsValue) (v : JsValue) :
  find_items_in values = Some v -> isArray v = true.
Proof.
  induction values as [|u values IH]; cbn [find_items_in]; [discriminate|].
  destruct (truthy u && typeof_object u); [|exact IH].
  destruct (isArray u) eqn:Harr; [now intros [= <-]|].
  destruct (truthy (prop u "items") && isArray (prop u "items")) eqn:Hitems; [|exact IH].
  intros [= <-]. now apply andb_true_iff in Hitems.
Qed.

Lemma extract_items_array (reqBody v : JsValue) :
  extract_items reqBody = inr v -> exists items, v = JArray items.
Proof.
  unfold extract_items.
  destruct (truthy reqBody && truthy (prop reqBody "items") && isArray (prop reqBody "items"))
    eqn:H1.
  - intros [= <-]. apply isArray_JArray. now apply andb_true_iff in H1.
  - destruct (isArray reqBody) eqn:H2; [intros [= <-]; now apply isArray_JArray|].
    destruct (truthy reqBody && typeof_object reqBody); [|discriminate].
    destruct (find_items_in (own_values reqBody)) eqn:Hfind.
    + intros [= <-]. apply isArray_JArray. exact (find_items_in_array _ _ Hfind).
    + destruct (truthy (js_or (prop reqBody "title") (prop reqBody "description")));
        [|discriminate].
      intros [= <-]. now eexists.
Qed.

(** X7: what the handler takes for the items of a request is always an
    array, so the only request with items that it rejects is the one
    whose array is empty, with status 400 and the error
    "No items to analyze found in request". *)
Theorem batch_items_array_rejected_when_empty
    (glyphWidth : Font -> JsString -> Q) (now : string) (reqBody found : JsValue)
    (st : Store) :
  extract_items reqBody = inr found ->
  exists items : list JsValue,
    found = JArray items /\
    (items = [] ->
     runState (analyze_batch glyphWidth now reqBody) st
     = (Some (res_status_json 400
                (ErrorBody "No items to analyze found in request" reqBody)), st)).
Proof.
  intros Hextract. destruct (extract_items_array reqBody found Hextract) as [items ->].
  exists items. split; [reflexivity|]. intros ->.
  unfold analyze_batch.
  destruct reqBody; try discriminate Hextract; rewrite Hextract; reflexivity.
Qed.

Lemma batch_items_array_rejected_when_empty_witness :
  exists items : list JsValue,
    JArray [] = JArray items /\
    (items = [] ->
     runState (analyze_batch (fixedPitch 10) sample_now (JArray [])) []
     = (Some (res_status_json 400
                (ErrorBody "No items to analyze found in request" (JArray []))), [])).
Proof.
  apply (batch_items_array_rejected_when_empty (fixedPitch 10) sample_now (JArray [])
           (JArray []) []).
  reflexivity.
Defined.

Lemma lookup_in_values (key : string) (props : list (string * JsValue)) :
  lookup key props = JUndefined \/ In (lookup key props) (map snd props).
Proof.
  induction props as [|[k v] props IH]; cbn [lookup map snd In]; [now left|].
  destruct (String.eqb k key); [right; now left|].
  destruct IH as [IH|IH]; [now left | right; now right].
Qed.

(** X8: in a body that is an object without an array for [items], the
    handler takes the items from the first property, in the order of the
    keys, whose value is an array or an object with an array for [items];
    the values before it that hold no array are passed over. *)
Theorem batch_items_from_first_wrapper
    (props : list (string * JsValue)) (before after : list JsValue) (v : JsValue) :
  isArray (prop (JObject props) "items") = false ->
  map snd props = before ++ v :: after ->
  forallb (fun u => negb (holds_items u)) before = true ->
  holds_items v = true ->
  extract_items (JObject props) = inr (items_in v).
Proof.
  intros Hitems Hvalues Hbefore Hv. unfold extract_items.
  rewrite Hitems, andb_false_r. cbn [isArray truthy typeof_object andb own_values].
  rewrite Hvalues, (find_items_in_first before after v Hbefore Hv). reflexivity.
Qed.

Lemma batch_items_from_first_wrapper_witness :
  extract_items wrapped_batch
  = inr (items_in (JObject [("items"%string, JArray sample_items)])).
Proof.
  apply (batch_items_from_first_wrapper
           [("source"%string, JString (js "assistant"));
            ("payload"%string, JObject [("items"%string, JArray sample_items)])]
           [JString (js "assistant")] []
           (JObject [("items"%string, JArray sample_items)])); reflexivity.
Defined.

Section FieldRuns.

Variable glyphWidth : Font -> JsString -> Q.

Lemma analyze_field_value_run (item : JsValue) (key : string) (type : MetaType) (st : Store) :
  exists st', runState (analyze_field glyphWidth item key type) st
              = (field_value glyphWidth item key type, st').
Proof. apply analyze_field_run. Qed.

(** A falsy property is not analyzed and allocates nothing. *)
Lemma analyze_field_falsy (item : JsValue) (key : string) (type : MetaType) (st : Store) :
  truthy (prop item key) = false ->
  runState (analyze_field glyphWidth item key type) st = (Some None, st).
Proof. intros H. unfold analyze_field. now rewrite H. Qed.

Lemma field_value_none_iff (item : JsValue) (key : string) (type : MetaType)
    (x : option Result.t) :
  field_value glyphWidth item key type = Some x ->
  (x = None <-> truthy (prop item key) = false).
Proof.
  unfold field_value, evalState, analyze_field.
  destruct (truthy (prop item key)).
  - destruct (prop item key); cbn [bind ret Monad_state runState fst]; try discriminate.
    rewrite analyzeText_run. cbn [fst]. intros [= <-]. split; discriminate.
  - cbn [ret Monad_state runState fst]. intros [= <-]. split; reflexivity.
Qed.

(** The entry of an item that passes the test of the callback. *)
Lemma entry_of_object (item : JsValue) :
  negb (truthy item) || negb (typeof_object item) = false ->
  entry glyphWidth item
  = match field_value glyphWidth item "title" title,
          field_value glyphWidth item "description" description with
    | Some t, Some d =>
        Some (Item.mk (Some (js_or (prop item "id") JNull)) t d
                (if negb (truthy (prop item "title"))
                    && negb (truthy (prop item "description"))
                 then Some "Item must contain either a title or description"%string
                 else None))
    | _, _ => None
    end.
Proof.
  intros Hguard. unfold entry, evalState, process_item. rewrite Hguard.
  cbn [bind Monad_state runState].
  destruct (analyze_field_value_run item "title" title []) as [st1 H1]. rewrite H1.
  cbn [fst snd].
  destruct (analyze_field_value_run item "description" description st1) as [st2 H2].
  rewrite H2. cbn [fst snd].
  destruct (field_value glyphWidth item "title" title);
    destruct (field_value glyphWidth item "description" description); reflexivity.
Qed.

End FieldRuns.

(** X9: an object posted on its own to the batch endpoint, none of whose
    property values holds an array and whose title or description is
    truthy, is analyzed as a batch of one: the response has status 200,
    [count] 1 and the entry of that object. *)
Theorem batch_single_object_body
    (glyphWidth : Font -> JsString -> Q) (now : string)
    (props : list (string * JsValue)) (st : Store) :
  forallb (fun u => negb (holds_items u)) (map snd props) = true ->
  truthy (prop (JObject props) "title") || truthy (prop (JObject props) "description") = true ->
  texts_are_strings (JObject props) = true ->
  exists r : Item.t,
    entry glyphWidth (JObject props) = Some r /\
    evalState (analyze_batch glyphWidth now (JObject props)) st
    = Some (res_json (BatchBody [r] 1 now)).
Proof.
  intros Hflat Htext Hstrings.
  assert (Hitems : isArray (prop (JObject props) "items") = false).
  { cbn [prop]. destruct (lookup_in_values "items" props) as [Hu|Hin].
    - now rewrite Hu.
    - rewrite forallb_forall in Hflat. specialize (Hflat _ Hin).
      apply negb_true_iff in Hflat. unfold holds_items in Hflat.
      destruct (lookup "items" props); try reflexivity. discriminate Hflat. }
  assert (Hextract : extract_items (JObject props) = inr (JArray [JObject props])).
  { unfold extract_items. rewrite Hitems, andb_false_r.
    cbn [isArray truthy typeof_object andb own_values].
    rewrite (find_items_in_none _ Hflat). unfold js_or.
    destruct (truthy (prop (JObject props) "title")) eqn:Ht.
    - now rewrite Ht.
    - cbn [orb] in Htext. now rewrite Htext. }
  destruct (map_items_run glyphWidth [JObject props] st) as (results & st' & Hrun & Hall).
  { repeat constructor. exact Hstrings. }
  inversion Hall as [|item r items rs Hr Hrest]; subst. inversion Hrest; subst.
  exists r. split; [exact Hr|].
  unfold analyze_batch, evalState. rewrite Hextract.
  cbn [truthy isArray negb orb elements_of length Nat.eqb bind Monad_state runState].
  rewrite Hrun. reflexivity.
Qed.

Lemma batch_single_object_body_witness :
  exists r : Item.t,
    entry (fixedPitch 10) single_item = Some r /\
    evalState (analyze_batch (fixedPitch 10) sample_now single_item) []
    = Some (res_json (BatchBody [r] 1 sample_now)).
Proof.
  apply (batch_single_object_body (fixedPitch 10) sample_now
           [("id"%string, JString (js "page1"));
            ("title"%string, JString (js "First Page Title"));
            ("description"%string, JString (js "Another description example"))] []);
    reflexivity.
Defined.

(** X10: an entry of the batch response has an error exactly when it has
    no analysis, and it has the analysis of a title (of a description)
    exactly when its item is an object whose [title] ([description]) is
    truthy. *)
Theorem entry_error_iff_no_analysis
    (glyphWidth : Font -> JsString -> Q) (item : JsValue) (st : Store) (r : Item.t) :
  evalState (process_item glyphWidth item) st = Some r ->
  (Item.error r <> None <-> Item.title r = None /\ Item.description r = None) /\
  (Item.title r <> None <->
     truthy item && typeof_object item && truthy (prop item "title") = true) /\
  (Item.description r <> None <->
     truthy item && typeof_object item && truthy (prop item "description") = true).
Proof.
  intros Hrun. unfold evalState in Hrun.
  destruct (process_item_run glyphWidth item st) as [st' Hst]. rewrite Hst in Hrun.
  cbn [fst] in Hrun.
  destruct (negb (truthy item) || negb (typeof_object item)) eqn:Hguard.
  - unfold entry, evalState, process_item in Hrun. rewrite Hguard in Hrun.
    injection Hrun as <-. cbn [Item.error Item.title Item.description].
    assert (Hobj : truthy item && typeof_object item = false).
    { destruct (truthy item), (typeof_object item); try reflexivity; discriminate Hguard. }
    rewrite Hobj. cbn [andb]. repeat split; try discriminate; try congruence.
  - rewrite (entry_of_object glyphWidth item Hguard) in Hrun.
    assert (Hobj : truthy item && typeof_object item = true).
    { destruct (truthy item), (typeof_object item); try reflexivity; discriminate Hguard. }
    rewrite Hobj. cbn [andb].
    destruct (field_value glyphWidth item "title" title) as [t|] eqn:Ht;
      [|discriminate Hrun].
    destruct (field_value glyphWidth item "description" description) as [d|] eqn:Hd;
      [|discriminate Hrun].
    injection Hrun as <-. cbn [Item.error Item.title Item.description].
    pose proof (field_value_none_iff glyphWidth item "title" title t Ht) as Et.
    pose proof (field_value_none_iff glyphWidth item "description" description d Hd) as Ed.
    destruct (truthy (prop item "title")), (truthy (prop item "description"));
      destruct t, d; cbn [negb andb];
      repeat split; intros; try discriminate; try congruence; try tauto;
      try (exfalso; intuition discriminate); try (intuition discriminate).
Qed.

Lemma entry_error_iff_no_analysis_witness :
  exists r : Item.t,
    evalState (process_item (fixedPitch 10) single_item) [] = Some r /\
    (Item.error r <> None <-> Item.title r = None /\ Item.description r = None) /\
    (Item.title r <> None <->
       truthy single_item && typeof_object single_item
       && truthy (prop single_item "title") = true) /\
    (Item.description r <> None <->
       truthy single_item && typeof_object single_item
       && truthy (prop single_item "description") = true).
Proof.
  eexists. split; [vm_compute; reflexivity|].
  apply (entry_error_iff_no_analysis (fixedPitch 10) single_item []).
  vm_compute. reflexivity.
Defined.

(** * Properties of the single endpoint *)

Section SingleRuns.

Variable glyphWidth : Font -> JsString -> Q.
Variable E : Type.

Lemma analyze_endpoint_run (method : string) (query reqBody : JsValue) (st : Store) :
  request_source method query reqBody <> JNull ->
  request_source method query reqBody <> JUndefined ->
  exists st',
    runState (analyze_endpoint glyphWidth E [] method query reqBody) st
    = (analyze_answer glyphWidth E (request_source method query reqBody), st').
Proof.
  unfold analyze_endpoint. fold (request_source method query reqBody).
  set (source := request_source method query reqBody).
  intros Hnull Hundef. unfold analyze_answer.
  destruct (analyze_field_value_run glyphWidth source "title" title st) as [st1 H1].
  destruct (analyze_field_value_run glyphWidth source "description" description st1)
    as [st2 H2].
  assert (Hrun :
    runState
      (t <- analyze_field glyphWidth source "title" title ;;
       d <- analyze_field glyphWidth source "description" description ;;
       match t, d with
       | Some response_title, Some response_description =>
           if negb (truthy (prop source "title"))
              && negb (truthy (prop source "description"))
           then ret (Some (mkAnalyzeResponse 400
                             (MissingParameter
                                "Please provide either a title or description parameter")))
           else ret (Some (mkAnalyzeResponse 200
                             (AnalysisBody response_title response_description)))
       | _, _ => ret None
       end) st
    = (analyze_answer glyphWidth E source, st2)).
  { cbn [bind Monad_state runState]. rewrite H1. cbn [fst snd]. rewrite H2. cbn [fst snd].
    unfold analyze_answer.
    destruct (field_value glyphWidth source "title" title);
      destruct (field_value glyphWidth source "description" description);
      try reflexivity.
    destruct (negb (truthy (prop source "title"))
              && negb (truthy (prop source "description"))); reflexivity. }
  exists st2. destruct source; try congruence; exact Hrun.
Qed.

End SingleRuns.

(** X11: a request that the handler of [/api/analyze] does not answer
    with status 200 (validation errors, no title and no description, or a
    missing body) is answered without any measurement: no canvas context
    is allocated. *)
Theorem rejected_request_allocates_nothing
    (glyphWidth : Font -> JsString -> Q) (E : Type) (errors : list E)
    (method : string) (query reqBody : JsValue) (st st' : Store)
    (response : AnalyzeResponse E) :
  runState (analyze_endpoint glyphWidth E errors method query reqBody) st
  = (Some response, st') ->
  analyze_status response <> 200%nat ->
  st' = st.
Proof.
  unfold analyze_endpoint. fold (request_source method query reqBody).
  set (source := request_source method query reqBody).
  destruct errors as [|e errors].
  2:{ cbn. intros [= <- <-]. reflexivity. }
  assert (Hobject :
    forall st0 st1 resp,
      runState
        (t <- analyze_field glyphWidth source "title" title ;;
         d <- analyze_field glyphWidth source "description" description ;;
         match t, d with
         | Some response_title, Some response_description =>
             if negb (truthy (prop source "title"))
                && negb (truthy (prop source "description"))
             then ret (Some (mkAnalyzeResponse 400
                               (MissingParameter
                                  "Please provide either a title or description parameter")))
             else ret (Some (mkAnalyzeResponse (E := E) 200
                               (AnalysisBody response_title response_description)))
         | _, _ => ret None
         end) st0 = (Some resp, st1) ->
      analyze_status resp <> 200%nat -> st1 = st0).
  { intros st0 st1 resp. cbn [bind Monad_state runState].
    destruct (truthy (prop source "title")) eqn:Ht;
      destruct (truthy (prop source "description")) eqn:Hd; cbn [negb andb].
    4:{ rewrite (analyze_field_falsy glyphWidth source "title" title st0 Ht).
        cbn [fst snd].
        rewrite (analyze_field_falsy glyphWidth source "description" description st0 Hd).
        cbn. intros [= <- <-]. reflexivity. }
    all: destruct (analyze_field_value_run glyphWidth source "title" title st0) as [s1 H1];
      rewrite H1; cbn [fst snd];
      destruct (analyze_field_value_run glyphWidth source "description" description s1)
        as [s2 H2];
      rewrite H2; cbn [fst snd];
      destruct (field_value glyphWidth source "title" title);
      destruct (field_value glyphWidth source "description" description);
      cbn; intros [= <- <-]; intros Hstatus; exfalso; apply Hstatus; reflexivity. }
  destruct source; try (cbn; intros [= <- <-]; reflexivity); apply Hobject.
Qed.

Lemma rejected_request_allocates_nothing_witness :
  [mkFont 20 "Arial"] = [mkFont 20 "Arial"].
Proof.
  apply (rejected_request_allocates_nothing (fixedPitch 10) nat [] "POST"
           (JObject []) (JObject [("title"%string, JString [])])
           [mkFont 20 "Arial"] [mkFont 20 "Arial"]
           (mkAnalyzeResponse 400
              (MissingParameter "Please provide either a title or description parameter"))).
  - reflexivity.
  - discriminate.
Defined.

(** X12: a response of [/api/analyze] with status 200 is never empty: it
    has the analysis of the title exactly when the title read from the
    request is truthy, the analysis of the description exactly when the
    description is truthy, and at least one of the two. *)
Theorem accepted_response_has_an_analysis
    (glyphWidth : Font -> JsString -> Q) (E : Type) (errors : list E)
    (method : string) (query reqBody : JsValue) (st : Store)
    (response : AnalyzeResponse E) :
  evalState (analyze_endpoint glyphWidth E errors method query reqBody) st = Some response ->
  analyze_status response = 200%nat ->
  exists t d : option Result.t,
    analyze_body response = AnalysisBody t d /\
    (t <> None <->
       truthy (prop (request_source method query reqBody) "title") = true) /\
    (d <> None <->
       truthy (prop (request_source method query reqBody) "description") = true) /\
    (t <> None \/ d <> None).
Proof.
  intros Hrun Hstatus. unfold evalState in Hrun.
  destruct errors as [|e errors]; [|cbn in Hrun; injection Hrun as <-; discriminate Hstatus].
  set (source := request_source method query reqBody) in *.
  assert (Hanswer : analyze_answer glyphWidth E source = Some response).
  { destruct source eqn:Hsource;
      try (destruct (analyze_endpoint_run glyphWidth E method query reqBody st)
             as [st' Hst];
           [fold source; rewrite Hsource; discriminate
           |fold source; rewrite Hsource; discriminate
           |rewrite Hst in Hrun; fold source in Hrun; rewrite Hsource in Hrun; exact Hrun]).
    - unfold analyze_endpoint in Hrun. fold (request_source method query reqBody) in Hrun.
      fold source in Hrun. rewrite Hsource in Hrun. cbn in Hrun.
      injection Hrun as <-. discriminate Hstatus.
    - unfold analyze_endpoint in Hrun. fold (request_source method query reqBody) in Hrun.
      fold source in Hrun. rewrite Hsource in Hrun. cbn in Hrun.
      injection Hrun as <-. discriminate Hstatus. }
  unfold analyze_answer in Hanswer.
  destruct (field_value glyphWidth source "title" title) as [t|] eqn:Ht;
    [|discriminate Hanswer].
  destruct (field_value glyphWidth source "description" description) as [d|] eqn:Hd;
    [|discriminate Hanswer].
  pose proof (field_value_none_iff glyphWidth source "title" title t Ht) as Et.
  pose proof (field_value_none_iff glyphWidth source "description" description d Hd) as Ed.
  destruct (truthy (prop source "title")), (truthy (prop source "description"));
    cbn [negb andb] in Hanswer; injection Hanswer as <-;
    try discriminate Hstatus;
    exists t, d; (split; [reflexivity|]);
    destruct t, d; repeat split; intros; try discriminate; try congruence;
    try (left; discriminate); try (right; discriminate);
    try (exfalso; intuition discriminate).
Qed.

Lemma accepted_response_has_an_analysis_witness :
  exists t d : option Result.t,
    analyze_body (mkAnalyzeResponse (E := nat) 200
                    (AnalysisBody (Some (analysis (fixedPitch 10) (js "First Page Title") title))
                                  None))
    = AnalysisBody t d /\
    (t <> None <->
       truthy (prop (request_source "GET"
                       (JObject [("title"%string, JString (js "First Page Title"))])
                       JUndefined) "title") = true) /\
    (d <> None <->
       truthy (prop (request_source "GET"
                       (JObject [("title"%string, JString (js "First Page Title"))])
                       JUndefined) "description") = true) /\
    (t <> None \/ d <> None).
Proof.
  apply (accepted_response_has_an_analysis (fixedPitch 10) nat [] "GET"
           (JObject [("title"%string, JString (js "First Page Title"))]) JUndefined []).
  - vm_compute. reflexivity.
  - reflexivity.
Defined.

(** X13: the two endpoints agree on an object: when the handler of
    [/api/analyze] reads its parameters in an object (the body of a
    request that is not GET), the entry of the batch endpoint for that
    object carries the same analyses and no error if the answer has
    status 200, and carries the error marker of an item without texts if
    the answer is the 400 of a request without parameters. *)
Theorem single_and_batch_agree
    (glyphWidth : Font -> JsString -> Q) (E : Type)
    (method : string) (query : JsValue) (props : list (string * JsValue)) (st : Store) :
  String.eqb method "GET" = false ->
  match evalState (analyze_endpoint glyphWidth E [] method query (JObject props)) st with
  | Some response =>
      exists r : Item.t,
        entry glyphWidth (JObject props) = Some r /\
        ((analyze_status response = 200%nat /\
          analyze_body response = AnalysisBody (Item.title r) (Item.description r) /\
          Item.error r = None)
         \/
         (analyze_status response = 400%nat /\
          analyze_body response
          = MissingParameter "Please provide either a title or description parameter" /\
          Item.error r = Some "Item must contain either a title or description"%string))
  | None => entry glyphWidth (JObject props) = None
  end.
Proof.
  intros Hmethod.
  assert (Hsource : request_source method query (JObject props) = JObject props).
  { unfold request_source. now rewrite Hmethod. }
  unfold evalState.
  destruct (analyze_endpoint_run glyphWidth E method query (JObject props) st) as [st' Hst];
    try (rewrite Hsource; discriminate).
  rewrite Hst, Hsource. cbn [fst].
  rewrite (entry_of_object glyphWidth (JObject props) eq_refl).
  unfold analyze_answer.
  destruct (field_value glyphWidth (JObject props) "title" title) as [t|]; [|reflexivity].
  destruct (field_value glyphWidth (JObject props) "description" description) as [d|];
    [|reflexivity].
  destruct (negb (truthy (prop (JObject props) "title"))
            && negb (truthy (prop (JObject props) "description")));
    eexists; (split; [reflexivity|]); [right | left]; repeat split.
Qed.

Lemma single_and_batch_agree_witness :
  match evalState (analyze_endpoint (fixedPitch 10) nat [] "POST" (JObject [])
                     (JObject [("id"%string, JString (js "page1"));
                               ("title"%string, JString (js "First Page Title"));
                               ("description"%string,
                                JString (js "Another description example"))])) [] with
  | Some response =>
      exists r : Item.t,
        entry (fixedPitch 10)
          (JObject [("id"%string, JString (js "page1"));
                    ("title"%string, JString (js "First Page Title"));
                    ("description"%string, JString (js "Another description example"))])
        = Some r /\
        ((analyze_status response = 200%nat /\
          analyze_body response = AnalysisBody (Item.title r) (Item.description r) /\
          Item.error r = None)
         \/
         (analyze_status response = 400%nat /\
          analyze_body response
          = MissingParameter "Please provide either a title or description parameter" /\
          Item.error r = Some "Item must contain either a title or description"%string))
  | None => entry (fixedPitch 10)
              (JObject [("id"%string, JString (js "page1"));
                        ("title"%string, JString (js "First Page Title"));
                        ("description"%string, JString (js "Another description example"))])
            = None
  end.
Proof.
  apply (single_and_batch_agree (fixedPitch 10) nat "POST" (JObject [])
           [("id"%string, JString (js "page1"));
            ("title"%string, JString (js "First Page Title"));
            ("description"%string, JString (js "Another description example"))] []).
  reflexivity.
Defined.

(** * Properties of the WordPress client *)




(** ** Splitting *)

Lemma split_on_nonempty (c : CodeUnit) (s : JsString) : split_on c s <> [].
Proof.
  destruct s as [|x s]; cbn [split_on]; [discriminate|].
  destruct (N.eqb x c); [discriminate|]. destruct (split_on c s); discriminate.
Qed.

(** Without the separator, the string is the only piece: the test
    [contentType.includes(',')] does not change the list of types. *)
Lemma split_on_without_separator (c : CodeUnit) (s : JsString) :
  includes s c = false -> split_on c s = [s].
Proof.
  unfold includes. induction s as [|x s IH]; cbn [existsb split_on]; [reflexivity|].
  intros H. apply orb_false_iff in H. destruct H as [Hx Hs].
  rewrite N.eqb_sym, Hx, (IH Hs). reflexivity.
Qed.

Lemma split_on_length (c : CodeUnit) (s : JsString) :
  length (split_on c s) = S (count_occ N.eq_dec s c).
Proof.
  induction s as [|x s IH]; cbn [split_on count_occ]; [reflexivity|].
  destruct (N.eqb_spec x c) as [->|Hne].
  - destruct (N.eq_dec c c); [|contradiction]. cbn [length]. now rewrite IH.
  - destruct (N.eq_dec x c); [contradiction|].
    destruct (split_on c s) eqn:Hs; [now destruct (split_on_nonempty c s)|].
    cbn [length] in *. exact IH.
Qed.

Lemma types_of_split (s : JsString) : types_of s = split_on 44%N s.
Proof.
  unfold types_of. destruct (includes s 44%N) eqn:H; [reflexivity|].
  symmetry. now apply split_on_without_separator.
Qed.

(** ** The URL of a request *)

Lemma strip_trailing_slash_added (s : JsString) :
  strip_trailing_slash (s ++ js "/") = s.
Proof.
  unfold strip_trailing_slash. change (js "/") with [47%N].
  rewrite rev_app_distr. cbn [rev app N.eqb Pos.eqb]. apply removelast_last.
Qed.

Lemma strip_trailing_slash_none (s : JsString) :
  ~ endsWith s (js "/") -> strip_trailing_slash s = s.
Proof.
  intros Hno. unfold strip_trailing_slash.
  destruct (rev s) as [|c r] eqn:Hrev; [reflexivity|].
  destruct (N.eqb_spec c 47%N) as [->|Hne]; [|reflexivity].
  exfalso. apply Hno. exists (rev r).
  rewrite <- (rev_involutive s), Hrev. reflexivity.
Qed.

(** X14: the URL requested for a site is the same with and without one
    trailing slash on the site URL: the site URL without that slash, then
    [/wp-json/wp/v2/], the endpoint and [?per_page=100].  Only one slash
    is removed. *)
Theorem api_url_ignores_one_trailing_slash (siteUrl endpoint : JsString) :
  ~ endsWith siteUrl (js "/") ->
  api_url siteUrl endpoint
  = siteUrl ++ js "/wp-json/wp/v2/" ++ endpoint ++ js "?per_page=100" /\
  api_url (siteUrl ++ js "/") endpoint = api_url siteUrl endpoint /\
  api_url ((siteUrl ++ js "/") ++ js "/") endpoint
  = (siteUrl ++ js "/") ++ js "/wp-json/wp/v2/" ++ endpoint ++ js "?per_page=100".
Proof.
  intros Hno. unfold api_url.
  rewrite !strip_trailing_slash_added, (strip_trailing_slash_none siteUrl Hno).
  repeat split.
Qed.

Lemma api_url_ignores_one_trailing_slash_witness :
  api_url (js "https://example.com") (js "pages")
  = js "https://example.com" ++ js "/wp-json/wp/v2/" ++ js "pages" ++ js "?per_page=100" /\
  api_url (js "https://example.com" ++ js "/") (js "pages")
  = api_url (js "https://example.com") (js "pages") /\
  api_url ((js "https://example.com" ++ js "/") ++ js "/") (js "pages")
  = (js "https://example.com" ++ js "/") ++ js "/wp-json/wp/v2/" ++ js "pages"
    ++ js "?per_page=100".
Proof.
  apply (api_url_ignores_one_trailing_slash (js "https://example.com") (js "pages")).
  intros H. apply (endsWith_last _ [] 47%N 0%N) in H. vm_compute in H. discriminate H.
Defined.

(** ** The results of a fetch *)

Section WpRuns.

Variable Net : Type.
Variable httpsGet : JsString -> Q -> state Net HttpOutcome.
Variable toLowerCase : JsString -> JsString.
Variable TypeError_message : TypeErrorSite -> JsString.

Lemma result_for_type (type : JsString) (outcome : HttpOutcome) :
  WpResult.type (result_for TypeError_message type outcome) = trim type.
Proof.
  unfold result_for. destruct outcome as [data|message]; [|reflexivity].
  destruct data; try reflexivity. destruct (format_items elements); reflexivity.
Qed.

Lemma result_for_success_or_failure (type : JsString) (outcome : HttpOutcome) :
  success_or_failure (result_for TypeError_message type outcome).
Proof.
  unfold result_for, success_or_failure.
  assert (Hfail : forall message,
            exists c m, Some (js "Failed to fetch " ++ type ++ js ": " ++ message)
                        = Some (c :: m)).
  { intros message. now eexists _, _. }
  destruct outcome as [data|message].
  - destruct data; try (right; destruct (Hfail (TypeError_message (MapOfData JUndefined)))
                          as (c & m & H); cbn [WpResult.error WpResult.data WpResult.count];
                        eexists _, _; repeat split; reflexivity).
    destruct (format_items elements).
    + left. split; reflexivity.
    + right. eexists _, _. repeat split; reflexivity.
  - right. eexists _, _. repeat split; reflexivity.
Qed.

Lemma fetch_types_results (url : JsString) (timeout : Q) (types : list JsString)
    (net net' : Net) (results : list WpResult.t) :
  runState (fetch_types Net httpsGet toLowerCase TypeError_message url timeout types) net
  = (Returned results, net') ->
  map WpResult.type results = map trim types /\
  Forall success_or_failure results.
Proof.
  revert net net' results. induction types as [|type types IH]; intros net net' results.
  - cbn. intros [= <- <-]. split; [reflexivity | constructor].
  - cbn [fetch_types].
    destruct (endpoint_for (trim (toLowerCase type))) as [endpoint|]; [|discriminate].
    cbn [bind Monad_state runState].
    destruct (runState (httpsGet (api_url url endpoint) timeout) net) as [outcome net1].
    cbn [fst snd].
    destruct (runState (fetch_types Net httpsGet toLowerCase TypeError_message url timeout
                          types) net1) as [others net2] eqn:Hrest.
    cbn [fst snd]. destruct others as [rs| |]; cbn; try discriminate.
    intros [= <- <-]. destruct (IH _ _ _ Hrest) as [Htypes Hall].
    split.
    + cbn [map]. now rewrite result_for_type, Htypes.
    + constructor; [apply result_for_success_or_failure | exact Hall].
Qed.

Lemma fetch_types_returns (url : JsString) (timeout : Q) (types : list JsString) (net : Net) :
  Forall (fun type => endpoint_for (trim (toLowerCase type)) <> None) types ->
  exists results net',
    runState (fetch_types Net httpsGet toLowerCase TypeError_message url timeout types) net
    = (Returned results, net').
Proof.
  intros Hok. revert net. induction Hok as [|type types Htype Hrest IH]; intros net.
  - now exists [], net.
  - cbn [fetch_types].
    destruct (endpoint_for (trim (toLowerCase type))) as [endpoint|]; [|contradiction].
    cbn [bind Monad_state runState].
    destruct (runState (httpsGet (api_url url endpoint) timeout) net) as [outcome net1].
    cbn [fst snd]. destruct (IH net1) as (results & net2 & Hrun). rewrite Hrun.
    cbn. now eexists _, _.
Qed.

End WpRuns.

(** X15: for a site URL and a content type that are strings,
    [fetchWordPressContent] returns one result for each piece of the
    content type between commas, in their order, each under the trimmed
    name of its piece, whatever the requests settle to: a request that
    fails does not end the fetch.  Names of inherited properties of
    objects are left aside. *)
Theorem fetch_one_result_per_type
    (Net : Type) (httpsGet : JsString -> Q -> state Net HttpOutcome)
    (toLowerCase : JsString -> JsString) (TypeError_message : TypeErrorSite -> JsString)
    (url contentType : JsString) (timeout : Q) (net : Net) :
  Forall (fun type => endpoint_for (trim (toLowerCase type)) <> None)
         (split_on 44%N contentType) ->
  exists results net',
    runState (fetchWordPressContent Net httpsGet toLowerCase TypeError_message
                (JString url) (JString contentType) timeout) net
    = (Returned results, net') /\
    map WpResult.type results = map trim (split_on 44%N contentType) /\
    length results = S (count_occ N.eq_dec contentType 44%N) /\
    Forall success_or_failure results.
Proof.
  intros Hok. unfold fetchWordPressContent. fold (types_of contentType).
  rewrite types_of_split.
  destruct (fetch_types_returns Net httpsGet toLowerCase TypeError_message url timeout
              _ net Hok) as (results & net' & Hrun).
  exists results, net'. split; [exact Hrun|].
  destruct (fetch_types_results _ _ _ _ _ _ _ _ _ _ Hrun) as [Htypes Hall].
  split; [exact Htypes|]. split; [|exact Hall].
  rewrite <- split_on_length, <- (length_map trim), <- Htypes. symmetry. apply length_map.
Qed.

Lemma fetch_one_result_per_type_witness :
  exists results net',
    runState (fetchWordPressContent (list JsString) sample_network ascii_toLowerCase
                v8_message (JString (js "https://example.com/"))
                (JString (js "posts, Categories,events")) 10000) []
    = (Returned results, net') /\
    map WpResult.type results = map trim (split_on 44%N (js "posts, Categories,events")) /\
    length results = S (count_occ N.eq_dec (js "posts, Categories,events") 44%N) /\
    Forall success_or_failure results.
Proof.
  apply (fetch_one_result_per_type (list JsString) sample_network ascii_toLowerCase
           v8_message (js "https://example.com/") (js "posts, Categories,events") 10000 []).
  replace (split_on 44%N (js "posts, Categories,events"))
    with [js "posts"; js " Categories"; js "events"] by (vm_compute; reflexivity).
  repeat (apply Forall_cons; [vm_compute; discriminate|]). apply Forall_nil.
Defined.

(** ** The handler of the WordPress endpoint *)

Section WpHandlerRuns.

Variable Net : Type.
Variable httpsGet : JsString -> Q -> state Net HttpOutcome.
Variable toLowerCase : JsString -> JsString.
Variable TypeError_message : TypeErrorSite -> JsString.

Lemma GetWebUrls_run (now method : string) (query reqBody : JsValue) (net : Net) :
  request_source method query reqBody <> JNull ->
  request_source method query reqBody <> JUndefined ->
  let requestData := wp_request_data (request_source method query reqBody) in
  runState (GetWebUrls Net httpsGet toLowerCase TypeError_message now method query reqBody) net
  = if negb (truthy (prop requestData "url")) then
      (Some (mkWpResponse 400 (WpFailure "Missing required parameter: url")), net)
    else
      let run := runState (fetchWordPressContent Net httpsGet toLowerCase TypeError_message
                             (prop requestData "url")
                             (js_or (prop requestData "types") (JString (js "posts")))
                             10000) net in
      (match fst run with
       | Returned results =>
           Some (mkWpResponse 200
                   (WpContent (prop requestData "url") (collect_results results) now))
       | Threw => Some (mkWpResponse 500 (WpFailure "Failed to fetch WordPress content"))
       | NotModelled => None
       end, snd run).
Proof.
  unfold GetWebUrls. fold (request_source method query reqBody).
  set (received := request_source method query reqBody).
  fold (wp_request_data received). intros Hnull Hundef. cbv zeta.
  set (requestData := wp_request_data received).
  destruct received; try congruence;
    (destruct (negb (truthy (prop requestData "url"))); [reflexivity|];
     cbn [bind Monad_state runState];
     destruct (runState (fetchWordPressContent Net httpsGet toLowerCase TypeError_message
                           (prop requestData "url")
                           (js_or (prop requestData "types") (JString (js "posts")))
                           10000) net) as [outcome net'];
     cbn [fst snd]; destruct outcome; reflexivity).
Qed.

Lemma GetWebUrls_without_data (now method : string) (query reqBody : JsValue) (net : Net) :
  request_source method query reqBody = JNull \/
  request_source method query reqBody = JUndefined ->
  runState (GetWebUrls Net httpsGet toLowerCase TypeError_message now method query reqBody) net
  = (Some (mkWpResponse 500 (WpFailure "Failed to fetch WordPress content")), net).
Proof.
  unfold GetWebUrls. fold (request_source method query reqBody).
  intros [-> | ->]; reflexivity.
Qed.

(** A parameter that is not a string makes the fetch throw at once. *)
Lemma fetchWordPressContent_throws (siteUrl contentType : JsValue) (timeout : Q) (net : Net) :
  is_string siteUrl && is_string contentType = false ->
  runState (fetchWordPressContent Net httpsGet toLowerCase TypeError_message
              siteUrl contentType timeout) net = (Threw, net).
Proof.
  unfold fetchWordPressContent.
  destruct contentType; try reflexivity. destruct siteUrl; try reflexivity. discriminate.
Qed.

Lemma fetchWordPressContent_returned (siteUrl contentType : JsValue) (timeout : Q)
    (net net' : Net) (results : list WpResult.t) :
  runState (fetchWordPressContent Net httpsGet toLowerCase TypeError_message
              siteUrl contentType timeout) net = (Returned results, net') ->
  (exists url, siteUrl = JString url) /\ Forall success_or_failure results.
Proof.
  unfold fetchWordPressContent.
  destruct contentType; try discriminate. destruct siteUrl; try discriminate.
  intros Hrun. split; [now eexists|].
  exact (proj2 (fetch_types_results _ _ _ _ _ _ _ _ _ _ Hrun)).
Qed.

End WpHandlerRuns.

(** X16: the handler of [/api/GetWebUrls] answers a request whose [url]
    is truthy but whose [url] or [types] is not a string (an array of
    types, as the documentation of the endpoint proposes for POST) with
    status 500, and makes no request to the site. *)
Theorem GetWebUrls_fails_on_parameters_that_are_not_strings
    (Net : Type) (httpsGet : JsString -> Q -> state Net HttpOutcome)
    (toLowerCase : JsString -> JsString) (TypeError_message : TypeErrorSite -> JsString)
    (now method : string) (query reqBody : JsValue) (net : Net) :
  let requestData := wp_request_data (request_source method query reqBody) in
  request_source method query reqBody <> JNull ->
  request_source method query reqBody <> JUndefined ->
  truthy (prop requestData "url") = true ->
  is_string (prop requestData "url")
  && is_string (js_or (prop requestData "types") (JString (js "posts"))) = false ->
  runState (GetWebUrls Net httpsGet toLowerCase TypeError_message now method query reqBody) net
  = (Some (mkWpResponse 500 (WpFailure "Failed to fetch WordPress content")), net).
Proof.
  cbv zeta. intros Hnull Hundef Hurl Hstrings.
  rewrite GetWebUrls_run by assumption. cbv zeta. rewrite Hurl. cbn [negb].
  rewrite fetchWordPressContent_throws by assumption. reflexivity.
Qed.

Lemma GetWebUrls_fails_on_parameters_that_are_not_strings_witness :
  runState (GetWebUrls (list JsString) sample_network ascii_toLowerCase v8_message
              sample_now "POST" JUndefined
              (JObject [("url"%string, JString (js "https://example.com"));
                        ("types"%string, JArray [JString (js "posts");
                                                 JString (js "pages")])])) []
  = (Some (mkWpResponse 500 (WpFailure "Failed to fetch WordPress content")), []).
Proof.
  apply (GetWebUrls_fails_on_parameters_that_are_not_strings (list JsString) sample_network
           ascii_toLowerCase v8_message sample_now "POST" JUndefined
           (JObject [("url"%string, JString (js "https://example.com"));
                     ("types"%string, JArray [JString (js "posts");
                                              JString (js "pages")])]) []);
    first [discriminate | reflexivity].
Defined.

(** X17: a request without a truthy [url] is answered with status 400 and
    the error "Missing required parameter: url", and no request is made
    to any site; the [input] of a wrapped request is where the [url] is
    looked for. *)
Theorem GetWebUrls_requires_url
    (Net : Type) (httpsGet : JsString -> Q -> state Net HttpOutcome)
    (toLowerCase : JsString -> JsString) (TypeError_message : TypeErrorSite -> JsString)
    (now method : string) (query reqBody : JsValue) (net : Net) :
  let requestData := wp_request_data (request_source method query reqBody) in
  request_source method query reqBody <> JNull ->
  request_source method query reqBody <> JUndefined ->
  truthy (prop requestData "url") = false ->
  runState (GetWebUrls Net httpsGet toLowerCase TypeError_message now method query reqBody) net
  = (Some (mkWpResponse 400 (WpFailure "Missing required parameter: url")), net).
Proof.
  cbv zeta. intros Hnull Hundef Hurl.
  rewrite GetWebUrls_run by assumption. cbv zeta. now rewrite Hurl.
Qed.

Lemma GetWebUrls_requires_url_witness :
  runState (GetWebUrls (list JsString) sample_network ascii_toLowerCase v8_message
              sample_now "POST" JUndefined
              (JObject [("url"%string, JString (js "https://example.com"));
                        ("input"%string, JObject [("types"%string, JString (js "posts"))])]))
           []
  = (Some (mkWpResponse 400 (WpFailure "Missing required parameter: url")), []).
Proof.
  apply (GetWebUrls_requires_url (list JsString) sample_network ascii_toLowerCase v8_message
           sample_now "POST" JUndefined
           (JObject [("url"%string, JString (js "https://example.com"));
                     ("input"%string, JObject [("types"%string, JString (js "posts"))])])
           []);
    first [discriminate | reflexivity].
Defined.

(** ** The object of the results *)



Lemma assign_Forall (P : WpSummary.t -> Prop) (key : JsString) (value : WpSummary.t)
    (obj : list (JsString * WpSummary.t)) :
  P value -> Forall (fun kv => P (snd kv)) obj ->
  Forall (fun kv => P (snd kv)) (assign key value obj).
Proof.
  intros Hvalue Hobj. induction Hobj as [|[k v] obj Hv Hrest IH]; cbn [assign].
  - now repeat constructor.
  - destruct (JsString_eqb k key); constructor; assumption.
Qed.

Lemma collect_results_snoc (results : list WpResult.t) (r : WpResult.t) :
  collect_results (results ++ [r])
  = assign (WpResult.type r) (summary_of r) (collect_results results).
Proof. unfold collect_results. now rewrite fold_left_app. Qed.

Lemma collect_results_Forall (P : WpSummary.t -> Prop) (results : list WpResult.t) :
  Forall (fun r => P (summary_of r)) results ->
  Forall (fun kv => P (snd kv)) (collect_results results).
Proof.
  induction results as [|r results IH] using rev_ind; intros Hall; [constructor|].
  rewrite collect_results_snoc. apply Forall_app in Hall. destruct Hall as [Hrest Hr].
  apply assign_Forall; [now inversion Hr | now apply IH].
Qed.

(** X18: in a response of status 200 of [/api/GetWebUrls] the [url] is a
    string and, under every type, [count] is the number of [items]; a
    type whose request failed has an error, no items and a count of 0,
    beside the types that succeeded. *)
Theorem GetWebUrls_counts_items
    (Net : Type) (httpsGet : JsString -> Q -> state Net HttpOutcome)
    (toLowerCase : JsString -> JsString) (TypeError_message : TypeErrorSite -> JsString)
    (now method : string) (query reqBody : JsValue) (net net' : Net)
    (response : WpResponse) :
  runState (GetWebUrls Net httpsGet toLowerCase TypeError_message now method query reqBody) net
  = (Some response, net') ->
  wp_status response = 200%nat ->
  exists (url : JsString) (results : list (JsString * WpSummary.t)),
    wp_body response = WpContent (JString url) results now /\
    Forall (fun kv =>
              WpSummary.count (snd kv) = length (WpSummary.items (snd kv)) /\
              (WpSummary.error (snd kv) <> None ->
               WpSummary.items (snd kv) = [] /\ WpSummary.count (snd kv) = 0%nat))
           results.
Proof.
  intros Hrun Hstatus.
  destruct (request_source method query reqBody) eqn:Hsource;
    try (rewrite GetWebUrls_without_data in Hrun by (rewrite Hsource; auto);
         injection Hrun as <- <-; discriminate Hstatus);
    (rewrite GetWebUrls_run in Hrun by (rewrite Hsource; discriminate);
     cbv zeta in Hrun;
     destruct (negb (truthy (prop (wp_request_data (request_source method query reqBody))
                               "url")));
     [injection Hrun as <- <-; discriminate Hstatus|];
     destruct (runState (fetchWordPressContent Net httpsGet toLowerCase TypeError_message
                           (prop (wp_request_data (request_source method query reqBody)) "url")
                           (js_or (prop (wp_request_data (request_source method query reqBody))
                                     "types") (JString (js "posts"))) 10000) net)
       as [outcome net1] eqn:Hfetch;
     cbn [fst snd] in Hrun;
     destruct outcome as [results| |];
     [|injection Hrun as <- <-; discriminate Hstatus | discriminate Hrun];
     injection Hrun as <- <-;
     destruct (fetchWordPressContent_returned _ _ _ _ _ _ _ _ _ _ Hfetch) as [[url Hurl] Hall];
     exists url, (collect_results results); rewrite Hurl; split; [reflexivity|];
     apply (collect_results_Forall
              (fun v => WpSummary.count v = length (WpSummary.items v) /\
                        (WpSummary.error v <> None ->
                         WpSummary.items v = [] /\ WpSummary.count v = 0%nat)));
     apply (Forall_impl _ (P := success_or_failure)); [|exact Hall];
     intros r Hr; unfold summary_of;
     cbn [WpSummary.count WpSummary.items WpSummary.error];
     split; [reflexivity|];
     destruct Hr as [[Herr _] | (c & m & Herr & Hdata & _)];
     [rewrite Herr; intros H; now destruct H
     |rewrite Hdata; intros _; split; reflexivity]).
Qed.

Lemma GetWebUrls_counts_items_witness :
  exists (url : JsString) (results : list (JsString * WpSummary.t)),
    wp_body (mkWpResponse 200
               (WpContent (JString (js "https://example.com/"))
                  [(js "media",
                    WpSummary.mk 0 []
                      (Some (js "Failed to fetch media: getaddrinfo ENOTFOUND")))]
                  sample_now))
    = WpContent (JString url) results sample_now /\
    Forall (fun kv =>
              WpSummary.count (snd kv) = length (WpSummary.items (snd kv)) /\
              (WpSummary.error (snd kv) <> None ->
               WpSummary.items (snd kv) = [] /\ WpSummary.count (snd kv) = 0%nat))
           results.
Proof.
  apply (GetWebUrls_counts_items (list JsString) sample_network ascii_toLowerCase v8_message
           sample_now "GET"
           (JObject [("url"%string, JString (js "https://example.com/"));
                     ("types"%string, JString (js "media"))])
           JUndefined []
           [js "https://example.com/wp-json/wp/v2/media?per_page=100"]).
  - vm_compute. reflexivity.
  - reflexivity.
Defined.


(** ** The items of a result *)

Lemma js_or_truthy_or_default (a b : JsValue) :
  (truthy a = true /\ js_or a b = a) \/ (truthy a = false /\ js_or a b = b).
Proof. unfold js_or. destruct (truthy a); [left | right]; split; reflexivity. Qed.

(** X20: an item of the data of a site keeps its [id]; its [date] and
    [modified] are those of the item when truthy and [null] otherwise; it
    has a [title] exactly when the [title] or the [name] of the item is
    truthy, the [title] of the item going before its [name], and a title
    that is an object gives its [rendered] text or, without one, the
    empty string. *)
Theorem format_item_fields (item : JsValue) (r : WpItem.t) :
  format_item item = Some r ->
  WpItem.id r = prop item "id" /\
  WpItem.date r = (if truthy (prop item "date") then prop item "date" else JNull) /\
  WpItem.modified r
  = (if truthy (prop item "modified") then prop item "modified" else JNull) /\
  (WpItem.title r = None <->
     truthy (prop item "title") = false /\ truthy (prop item "name") = false) /\
  (truthy (prop item "title") = true -> typeof_object (prop item "title") = false ->
   WpItem.title r = Some (prop item "title")) /\
  (truthy (prop item "title") = true -> typeof_object (prop item "title") = true ->
   WpItem.title r
   = Some (if truthy (prop (prop item "title") "rendered")
           then prop (prop item "title") "rendered" else JString [])) /\
  (truthy (prop item "title") = false -> truthy (prop item "name") = true ->
   WpItem.title r = Some (prop item "name")).
Proof.
  intros Hformat.
  assert (Hr : r = WpItem.mk
                 (prop item "id")
                 (js_or (prop item "date") JNull)
                 (js_or (prop item "modified") JNull)
                 (if truthy (prop item "title") then
                    if typeof_object (prop item "title") then
                      Some (js_or (prop (prop item "title") "rendered") (JString []))
                    else Some (js_or (prop item "title") (JString []))
                  else if truthy (prop item "name") then
                    Some (js_or (prop item "name") (JString []))
                  else None)).
  { unfold format_item in Hformat. destruct item; try discriminate Hformat;
      now injection Hformat as <-. }
  subst r. cbn [WpItem.id WpItem.date WpItem.modified WpItem.title]. unfold js_or.
  split; [reflexivity|]. split; [reflexivity|]. split; [reflexivity|].
  destruct (truthy (prop item "title")) eqn:Ht.
  - destruct (typeof_object (prop item "title")) eqn:Hobj.
    + repeat split; try discriminate; try reflexivity. intros [H _]. discriminate H.
    + repeat split; try discriminate; try reflexivity. intros [H _]. discriminate H.
  - destruct (truthy (prop item "name")) eqn:Hn.
    + repeat split; try discriminate; try reflexivity. intros [_ H]. discriminate H.
    + repeat split; try discriminate; try reflexivity.
Qed.

Lemma format_item_fields_witness :
  WpItem.id sample_post_item
  = prop sample_post "id" /\
  WpItem.date sample_post_item
  = (if truthy (prop sample_post "date") then prop sample_post "date" else JNull) /\
  WpItem.modified sample_post_item
  = (if truthy (prop sample_post "modified") then prop sample_post "modified" else JNull) /\
  (WpItem.title sample_post_item = None <->
     truthy (prop sample_post "title") = false /\ truthy (prop sample_post "name") = false) /\
  (truthy (prop sample_post "title") = true ->
   typeof_object (prop sample_post "title") = false ->
   WpItem.title sample_post_item
   = Some (prop sample_post "title")) /\
  (truthy (prop sample_post "title") = true ->
   typeof_object (prop sample_post "title") = true ->
   WpItem.title sample_post_item
   = Some (if truthy (prop (prop sample_post "title") "rendered")
           then prop (prop sample_post "title") "rendered" else JString [])) /\
  (truthy (prop sample_post "title") = false -> truthy (prop sample_post "name") = true ->
   WpItem.title sample_post_item
   = Some (prop sample_post "name")).
Proof.
  apply (format_item_fields sample_post). reflexivity.
Defined.

(** ** The requests of a fetch *)

Lemma own_endpoint_in (key endpoint : JsString) (table : list (JsString * JsString)) :
  own_endpoint key table = Some endpoint -> In endpoint (map snd table).
Proof.
  induction table as [|[k v] table IH]; cbn [own_endpoint map snd In]; [discriminate|].
  destruct (JsString_eqb k key); [intros [= <-]; now left | right; now apply IH].
Qed.

Lemma endpoint_for_known (key endpoint : JsString) :
  endpoint_for key = Some endpoint -> In endpoint (map snd typeToEndpoint).
Proof.
  unfold endpoint_for. destruct (own_endpoint key typeToEndpoint) eqn:Hown.
  - intros [= <-]. exact (own_endpoint_in _ _ _ Hown).
  - destruct (existsb _ _); [discriminate|]. intros [= <-]. cbn. tauto.
Qed.




Section LoggedRuns.

Variable Net : Type.
Variable httpsGet : JsString -> Q -> state Net HttpOutcome.
Variable toLowerCase : JsString -> JsString.
Variable TypeError_message : TypeErrorSite -> JsString.


End LoggedRuns.



(** * The shapes of a batch request *)

Lemma map_items_eval (glyphWidth : Font -> JsString -> Q) (items : list JsValue)
    (st : Store) :
  evalState (map_items glyphWidth items) st = evalState (map_items glyphWidth items) [].
Proof.
  assert (H : forall st0, exists st1,
             runState (map_items glyphWidth items) st0
             = (evalState (map_items glyphWidth items) [], st1)).
  { induction items as [|item items IH]; intros st0.
    - now exists st0.
    - unfold evalState in *. cbn [map_items bind Monad_state runState].
      destruct (process_item_run glyphWidth item st0) as [s1 H1].
      destruct (process_item_run glyphWidth item []) as [s1' H1'].
      rewrite H1, H1'. cbn [fst snd].
      destruct (IH s1) as [s2 H2]. destruct (IH s1') as [s2' H2'].
      rewrite H2, H2'. cbn [fst snd].
      destruct (entry glyphWidth item);
        destruct (fst (runState (map_items glyphWidth items) []));
        now eexists. }
  unfold evalState at 1. destruct (H st) as [st1 ->]. reflexivity.
Qed.

(** X22: the response of the batch endpoint depends on the body only
    through the items found in it: two bodies in which the handler finds
    the same array of items, not empty, get the same response, whatever
    contexts were allocated before; so [{ "items": [...] }], a bare array
    and a wrapped array are answered alike. *)
Theorem batch_response_depends_on_items_only
    (glyphWidth : Font -> JsString -> Q) (now : string)
    (reqBody reqBody' : JsValue) (items : list JsValue) (st st' : Store) :
  items <> [] ->
  extract_items reqBody = inr (JArray items) ->
  extract_items reqBody' = inr (JArray items) ->
  evalState (analyze_batch glyphWidth now reqBody) st
  = evalState (analyze_batch glyphWidth now reqBody') st'.
Proof.
  intros Hne H H'.
  assert (Hshape : forall body s,
            extract_items body = inr (JArray items) ->
            evalState (analyze_batch glyphWidth now body) s
            = match evalState (map_items glyphWidth items) [] with
              | Some results => Some (res_json (BatchBody results (length results) now))
              | None => None
              end).
  { intros body s Hbody. rewrite <- (map_items_eval glyphWidth items s).
    unfold analyze_batch, evalState.
    destruct body; try discriminate Hbody; rewrite Hbody;
      cbn [truthy isArray negb orb elements_of];
      (destruct items as [|item rest]; [congruence|]);
      cbn [length Nat.eqb bind Monad_state runState];
      destruct (runState (map_items glyphWidth (item :: rest)) s) as [[results|] s1];
      reflexivity. }
  now rewrite (Hshape reqBody st H), (Hshape reqBody' st' H').
Qed.

Lemma batch_response_depends_on_items_only_witness :
  evalState (analyze_batch (fixedPitch 10) sample_now sample_batch) []
  = evalState (analyze_batch (fixedPitch 10) sample_now wrapped_batch) [mkFont 14 "Arial"].
Proof.
  apply (batch_response_depends_on_items_only (fixedPitch 10) sample_now
           sample_batch wrapped_batch sample_items [] [mkFont 14 "Arial"]).
  - discriminate.
  - reflexivity.
  - reflexivity.
Defined.
